(** * DoFler API client (dofler/api/client.py): model and properties

    The class [DoflerClient] reports accounts, images and statistics either
    to a local database (when the configured host is a loopback name) or to
    a remote collector over HTTP.  The methods are embedded here as
    computations in a state-and-exception monad over a [World] that holds
    everything the methods touch: the file system, the clock, the network
    side of the request pool, the database with its open sessions, and the
    trace of observable events (log lines, requests, session operations).

    Python 2 [str] values are byte strings; they are modelled by [string]
    (a list of 8-bit characters).  Python integers are [Z]. *)

From Stdlib Require Import ZArith Lia Ascii String.
From stdpp Require Import gmap strings list pretty.

Local Open Scope Z_scope.

(** ** Python string helpers *)

(** [s[:n]] *)
Fixpoint str_take (n : nat) (s : string) : string :=
  match n, s with
  | O, _ => EmptyString
  | S _, EmptyString => EmptyString
  | S n', String c s' => String c (str_take n' s')
  end.

(** [s * n] for a non-negative count *)
Fixpoint str_mul (s : string) (n : nat) : string :=
  match n with
  | O => EmptyString
  | S n' => s +:+ str_mul s n'
  end.

(** [s.split('.')]: the fields between dots; never empty. *)
Fixpoint split_dot (s : string) : list string :=
  match s with
  | EmptyString => [EmptyString]
  | String c s' =>
      if Ascii.eqb c "."%char then EmptyString :: split_dot s'
      else match split_dot s' with
           | [] => [String c EmptyString]
           | f :: fs => String c f :: fs
           end
  end.

(** [s.split('.')[-1]] *)
Definition last_field (s : string) : string :=
  List.last (split_dot s) EmptyString.

(** ** Values, exceptions and events *)

Inductive Exn : Type :=
  | IOError (filename : string)
  | OSError (filename : string)
  | NoResultFound
  | MultipleResultsFound
  | InvalidRequestError
  | ValueError (text : string)
  | ConnectionError (reason : string).

(** Form values of a POST: strings, and the integer count of [stat]. *)
Inductive Value : Type :=
  | VStr (s : string)
  | VInt (n : Z).

(** An object returned by [open(filename, 'rb')]. *)
Record FileObj : Type := mkFileObj {
  fo_name : string;
  fo_data : string
}.

(** What a path names on the sensor: a regular file, or something that
    exists but cannot be opened for reading (a directory). *)
Inductive FsEntry : Type :=
  | File (data : string)
  | Dir (size : Z).

Record Request : Type := mkRequest {
  location : string;
  data : gmap string Value;
  files : gmap string FileObj
}.

(** What the pool does with a request: [post] itself raises, or it returns
    a future that later holds a response body or an exception. *)
Inductive FutureState : Type :=
  | Response (content : string)
  | Failed (e : Exn).

Inductive NetReply : Type :=
  | SubmitRaises (e : Exn)
  | Submitted (f : FutureState).

Inductive Level : Type := DEBUG | ERROR.

Inductive Event : Type :=
  | ELog (lvl : Level) (msg : string)
  | EPost (handle : nat) (req : Request)
  | EResult (handle : nat)
  | ESessionOpen (sid : nat)
  | ECommit (sid : nat)
  | EClose (sid : nat).

(** ** Database rows *)

(** Modelled from the spec: dofler/models.py is not among the sources.  The
    spec gives the schema [Account(username, password, info, proto, parser)]
    and the constructor is called with these five values in this order. *)
Record Account : Type := mkAccount {
  a_username : string;
  a_password : string;
  a_info : string;
  a_proto : string;
  a_parser : string
}.

(** Modelled from the spec: dofler/models.py is not among the sources.  The
    spec gives [Image(timestamp, filetype, data, content_hash PK, count)]
    with an occurrence counter that starts at 1; the constructor takes the
    first four. *)
Record Image : Type := mkImage {
  timestamp : Z;
  filetype : string;
  i_data : string;
  md5sum : string;
  count : Z
}.

Definition Image_new (ts : Z) (ftype : string) (bytes : string) (md5 : string) : Image :=
  mkImage ts ftype bytes md5 1.

(** Modelled from the spec: dofler/models.py is not among the sources.  The
    spec gives [Stat(proto, username, count, timestamp)] with an implicit
    creation timestamp; the constructor takes the first three. *)
Record Stat : Type := mkStat {
  s_proto : string;
  s_username : string;
  s_count : Z;
  s_timestamp : Z
}.

Record Database : Type := mkDatabase {
  accounts : list Account;
  images : list Image;
  stats : list Stat
}.

(** Changes a session holds until [commit]: new objects handed to [add], and
    persistent objects whose attributes were assigned. *)
Inductive DbOp : Type :=
  | AddAccount (a : Account)
  | AddImage (i : Image)
  | DirtyImage (i : Image)
  | AddStat (s : Stat).

(** The UPDATE of a dirty image addresses the row by its primary key. *)
Definition update_image (i : Image) (row : Image) : Image :=
  if String.eqb (md5sum row) (md5sum i) then i else row.

Definition apply_op (d : Database) (op : DbOp) : Database :=
  match op with
  | AddAccount a => mkDatabase (accounts d ++ [a]) (images d) (stats d)
  | AddImage i => mkDatabase (accounts d) (images d ++ [i]) (stats d)
  | DirtyImage i => mkDatabase (accounts d) (List.map (update_image i) (images d)) (stats d)
  | AddStat s => mkDatabase (accounts d) (images d) (stats d ++ [s])
  end.

Definition flush (d : Database) (ops : list DbOp) : Database :=
  List.fold_left apply_op ops d.

(** ** The world *)

Record World : Type := mkWorld {
  fs : gmap string FsEntry;
  clock : nat -> Z;            (* the successive values of int(time.time()) *)
  ticks : nat;                 (* how many of them were read *)
  net : nat -> NetReply;       (* the fate of the n-th request *)
  db : Database;
  sessions : gmap nat (list DbOp);   (* open sessions and their pending changes *)
  next_sid : nat;
  trace : list Event
}.

Definition set_ticks (n : nat) (w : World) : World :=
  mkWorld (fs w) (clock w) n (net w) (db w) (sessions w) (next_sid w) (trace w).

Definition set_db (d : Database) (w : World) : World :=
  mkWorld (fs w) (clock w) (ticks w) (net w) d (sessions w) (next_sid w) (trace w).

Definition set_sessions (s : gmap nat (list DbOp)) (w : World) : World :=
  mkWorld (fs w) (clock w) (ticks w) (net w) (db w) s (next_sid w) (trace w).

Definition set_next_sid (n : nat) (w : World) : World :=
  mkWorld (fs w) (clock w) (ticks w) (net w) (db w) (sessions w) n (trace w).

Definition set_trace (t : list Event) (w : World) : World :=
  mkWorld (fs w) (clock w) (ticks w) (net w) (db w) (sessions w) (next_sid w) t.

(** ** The monad: state that survives exceptions *)

Inductive Outcome (A : Type) : Type :=
  | Returned (a : A)
  | Raised (e : Exn).
Arguments Returned {A} a.
Arguments Raised {A} e.

Definition M (A : Type) : Type := World -> Outcome A * World.

Definition ret {A} (a : A) : M A := fun w => (Returned a, w).

Definition raise {A} (e : Exn) : M A := fun w => (Raised e, w).

Definition bind {A B} (k : A -> M B) (m : M A) : M B :=
  fun w =>
    match m w with
    | (Returned a, w') => k a w'
    | (Raised e, w') => (Raised e, w')
    end.

(** [try: body / except: handler] with a bare [except]. *)
Definition try_except {A} (body : M A) (handler : M A) : M A :=
  fun w =>
    match body w with
    | (Returned a, w') => (Returned a, w')
    | (Raised _, w') => handler w'
    end.

(** The notations [x ← m; k] and [m;; k] of stdpp. *)
#[global] Instance M_ret : MRet M := @ret.
#[global] Instance M_bind : MBind M := @bind.

Definition emit (e : Event) : M unit :=
  fun w => (Returned tt, set_trace (trace w ++ [e]) w).

(** ** The collaborators: logging, time, files, the pool, sessions *)

Definition log_debug (msg : string) : M unit := emit (ELog DEBUG msg).
Definition log_error (msg : string) : M unit := emit (ELog ERROR msg).

(** [int(time.time())] *)
Definition time_time : M Z :=
  fun w => (Returned (clock w (ticks w)), set_ticks (S (ticks w)) w).

(** [os.path.exists(filename)] *)
Definition os_path_exists (filename : string) : M bool :=
  fun w => (Returned (bool_decide (is_Some (fs w !! filename))), w).

(** [open(filename, 'rb')] *)
Definition open_rb (filename : string) : M FileObj :=
  fun w =>
    match fs w !! filename with
    | Some (File bytes) => (Returned (mkFileObj filename bytes), w)
    | _ => (Raised (IOError filename), w)
    end.

(** [os.path.getsize(filename)] *)
Definition os_path_getsize (filename : string) : M Z :=
  fun w =>
    match fs w !! filename with
    | Some (File bytes) => (Returned (Z.of_nat (String.length bytes)), w)
    | Some (Dir size) => (Returned size, w)
    | None => (Raised (OSError filename), w)
    end.

(** Requests handed to the pool so far. *)
Fixpoint posts_of (t : list Event) : list Request :=
  match t with
  | [] => []
  | EPost _ r :: t' => r :: posts_of t'
  | _ :: t' => posts_of t'
  end.

(** [self.opener.post(location, data=data, files=files)]: the request is
    handed to the pool and a future comes back, unless the pool raises. *)
Definition opener_post (req : Request) : M nat :=
  fun w =>
    let h := List.length (posts_of (trace w)) in
    let w' := set_trace (trace w ++ [EPost h req]) w in
    match net w h with
    | SubmitRaises e => (Raised e, w')
    | Submitted _ => (Returned h, w')
    end.

(** [future.result()]: waits for the request and gives its response. *)
Definition result (h : nat) : M string :=
  fun w =>
    let w' := set_trace (trace w ++ [EResult h]) w in
    match net w h with
    | Submitted (Response body) => (Returned body, w')
    | Submitted (Failed e) => (Raised e, w')
    | SubmitRaises e => (Raised e, w')
    end.

(** [self.Session()] *)
Definition Session : M nat :=
  fun w =>
    let sid := next_sid w in
    (Returned sid,
     set_trace (trace w ++ [ESessionOpen sid])
       (set_next_sid (S sid) (set_sessions (<[sid := []]> (sessions w)) w))).

(** [s.add(obj)], and the bookkeeping of an assigned attribute. *)
Definition s_pend (sid : nat) (op : DbOp) : M unit :=
  fun w =>
    match sessions w !! sid with
    | Some ops => (Returned tt, set_sessions (<[sid := ops ++ [op]]> (sessions w)) w)
    | None => (Raised InvalidRequestError, w)
    end.

(** [s.commit()] *)
Definition s_commit (sid : nat) : M unit :=
  fun w =>
    match sessions w !! sid with
    | Some ops =>
        (Returned tt,
         set_trace (trace w ++ [ECommit sid])
           (set_sessions (<[sid := []]> (sessions w)) (set_db (flush (db w) ops) w)))
    | None => (Raised InvalidRequestError, w)
    end.

(** [s.close()] *)
Definition s_close (sid : nat) : M unit :=
  fun w =>
    (Returned tt,
     set_trace (trace w ++ [EClose sid]) (set_sessions (delete sid (sessions w)) w)).

(** [s.query(Account)], [s.query(Image)]: the rows of the table.  Every query
    of the client comes before the session has pending changes, so there is
    nothing to flush first. *)
Definition query_Account (sid : nat) : M (list Account) :=
  fun w => (Returned (accounts (db w)), w).

Definition query_Image (sid : nat) : M (list Image) :=
  fun w => (Returned (images (db w)), w).

Definition filter_by_username (v : string) (rows : list Account) : list Account :=
  List.filter (fun r => String.eqb (a_username r) v) rows.

Definition filter_by_password (v : string) (rows : list Account) : list Account :=
  List.filter (fun r => String.eqb (a_password r) v) rows.

Definition filter_by_info (v : string) (rows : list Account) : list Account :=
  List.filter (fun r => String.eqb (a_info r) v) rows.

Definition filter_by_md5sum (v : string) (rows : list Image) : list Image :=
  List.filter (fun r => String.eqb (md5sum r) v) rows.

(** [query.count()] *)
Definition q_count {A} (rows : list A) : Z := Z.of_nat (List.length rows).

(** [query.one()] *)
Definition one {A} (rows : list A) : M A :=
  match rows with
  | [] => raise NoResultFound
  | [r] => ret r
  | _ => raise MultipleResultsFound
  end.

(** ** The client *)

(** The attributes [__init__] stores.  [self.opener] is the pool behind
    [opener_post]; [self.engine] and [self.Session] are created under the
    same loopback test that guards every use of [self.Session], and are
    bound to the database of the world.  [port] is kept as the text that
    ['%s'] gives it in the URL. *)
Record DoflerClient : Type := mkClient {
  host : string;
  port : string;
  ssl : bool;
  anonymize : bool;
  username : string
}.

(** [self.host in ['localhost', '127.0.0.1']] *)
Definition is_local (self : DoflerClient) : bool :=
  bool_decide (host self ∈ ["localhost"; "127.0.0.1"]).

(** The first statement of [account]: with the anonymization bit set, a
    password of three characters or more keeps its first three and has the
    rest replaced by asterisks. *)
Definition anonymize_password (anon : bool) (password : string) : string :=
  if anon then
    if bool_decide (3 ≤ String.length password)%nat then
      str_take 3 password +:+ str_mul "*" (String.length password - 3)
    else password
  else password.

Definition scheme (b : bool) : string :=
  if b then "https://" else "http://".

(** ['%s%s:%s%s' % (ssl[self.ssl], self.host, self.port, url)] *)
Definition location_of (self : DoflerClient) (url : string) : string :=
  scheme (ssl self) +:+ host self +:+ ":" +:+ port self +:+ url.

(** [DoflerClient.call] *)
Definition call (self : DoflerClient) (url : string)
    (data : gmap string Value) (files : gmap string FileObj) : M nat :=
  let location := location_of self url in
  log_debug ("CLIENT: " +:+ location);;
  opener_post (mkRequest location data files).

(** [DoflerClient.login] *)
Definition login (self : DoflerClient) (username password : string) : M unit :=
  h ← call self "/post/login"
        {[ "username" := VStr username; "password" := VStr password ]} ∅;
  _ ← result h;
  mret tt.

(** [DoflerClient.__init__]: the attributes are set, then [login] runs;
    creating the engine and the session factory touches nothing. *)
Definition DoflerClient_init (host port username password : string)
    (ssl anon : bool) : M DoflerClient :=
  let self := mkClient host port ssl anon username in
  login self username password;;
  mret self.

(** [DoflerClient.reset] *)
Definition reset (self : DoflerClient) (env : string) : M unit :=
  _ ← call self "/post/reset" {[ "type" := VStr env ]} ∅;
  mret tt.

Section Collaborators.

(** Code that is not in this module: [dofler.md5.md5hash], the sanitizer
    [bleach.clean], and [json.loads] with the values it produces ([None]
    when it raises [ValueError]). *)
Variable md5hash : string -> string.
Variable clean : string -> string.
Variable Json : Type.
Variable json_loads : string -> option Json.

(** [DoflerClient.account] *)
Definition account (self : DoflerClient)
    (username password info proto parser : string) : M unit :=
  let password := anonymize_password (anonymize self) password in
  if is_local self then
    s ← Session;
    rows ← query_Account s;
    if bool_decide
         (q_count (filter_by_info (clean info)
                    (filter_by_password (clean password)
                      (filter_by_username (clean username) rows))) < 1)
       && negb (String.eqb password EmptyString)
    then
      s_pend s (AddAccount (mkAccount (clean username) (clean password)
                              (clean info) (clean proto) (clean parser)));;
      s_commit s;;
      log_debug ("DATABASE: Added Account: " +:+ username +:+ ":" +:+ password
                 +:+ ":" +:+ info +:+ ":" +:+ proto +:+ ":" +:+ parser)
    else mret tt
  else
    _ ← call self "/post/account"
          {[ "username" := VStr username; "password" := VStr password;
             "info" := VStr info; "proto" := VStr proto;
             "parser" := VStr parser ]} ∅;
    mret tt.

(** [DoflerClient.image] *)
Definition image (self : DoflerClient) (filename : string) : M unit :=
  found ← os_path_exists filename;
  if found : bool then
    if is_local self then
      imagefile ← open_rb filename;
      let bytes := fo_data imagefile in
      let md5 := md5hash bytes in
      s ← Session;
      rows ← query_Image s;
      (if bool_decide (q_count (filter_by_md5sum md5 rows) > 0) then
         rows' ← query_Image s;
         img ← one (filter_by_md5sum md5 rows');
         now ← time_time;
         let img := mkImage now (filetype img) (i_data img) (md5sum img)
                            (count img + 1) in
         (* the row is already in the session: [s.merge(image)] gives it back,
            and the two assignments are what the session has to flush *)
         s_pend s (DirtyImage img);;
         log_debug ("DATABASE: Updated Image " +:+ md5sum img)
       else
         let ftype := last_field filename in
         now ← time_time;
         let img := Image_new now ftype bytes md5 in
         s_pend s (AddImage img);;
         log_debug ("DATABASE: Added Image " +:+ md5sum img));;
      s_commit s;;
      s_close s
    else
      try_except
        (f ← open_rb filename;
         _ ← call self "/post/image"
               {[ "filetype" := VStr (last_field filename) ]} {[ "file" := f ]};
         mret tt)
        (size ← os_path_getsize filename;
         log_error ("API: Upload Failed. " +:+ filename +:+ "="
                    +:+ pretty (size `div` 1024) +:+ "kb"))
  else
    log_error ("API: " +:+ filename +:+ " doesnt exist").

(** Modelled from the spec: the constructor of [Stat] (dofler/models.py is
    not among the sources) stamps the row with its creation time. *)
Definition Stat_new (proto username : string) (count : Z) : M Stat :=
  now ← time_time;
  mret (mkStat proto username count now).

(** [DoflerClient.stat] *)
Definition stat (self : DoflerClient) (proto : string) (count : Z) : M unit :=
  if is_local self then
    s ← Session;
    row ← Stat_new proto (username self) count;
    s_pend s (AddStat row);;
    s_commit s;;
    s_close s;;
    log_debug ("DATABASE: Added Stat " +:+ proto +:+ ":" +:+ pretty count
               +:+ ":" +:+ username self)
  else
    _ ← call self "/post/stat"
          {[ "proto" := VStr proto; "count" := VInt count;
             "username" := VStr (username self) ]} ∅;
    mret tt.

(** [json.loads(text)] *)
Definition json_loads_M (text : string) : M Json :=
  match json_loads text with
  | Some j => mret j
  | None => raise (ValueError text)
  end.

(** [DoflerClient.services] *)
Definition services (self : DoflerClient) : M Json :=
  h ← call self "/post/services"
        {[ "action" := VStr "none"; "parser" := VStr "none" ]} ∅;
  body ← result h;
  json_loads_M body.

(** [DoflerClient.start] *)
Definition start (self : DoflerClient) (name : string) : M Json :=
  h ← call self "/post/services"
        {[ "action" := VStr "Start"; "parser" := VStr name ]} ∅;
  body ← result h;
  json_loads_M body.

(** [DoflerClient.stop] *)
Definition stop (self : DoflerClient) (name : string) : M Json :=
  h ← call self "/post/services"
        {[ "action" := VStr "Stop"; "parser" := VStr name ]} ∅;
  body ← result h;
  json_loads_M body.

End Collaborators.

(** ** Instances used to run the model *)

(** A world with the given files and network, the clock at 1000 and counting
    up by seconds, an empty database and nothing open or traced. *)
Definition fresh_world (files : gmap string FsEntry) (replies : nat -> NetReply) : World :=
  mkWorld files (fun n => 1000 + Z.of_nat n) 0 replies (mkDatabase [] [] []) ∅ 0 [].

Definition always_ok : nat -> NetReply := fun _ => Submitted (Response "{}").
Definition unreachable : nat -> NetReply :=
  fun _ => Submitted (Failed (ConnectionError "connection refused")).

Fixpoint str_prefix (p s : string) : bool :=
  match p, s with
  | EmptyString, _ => true
  | String a p', String b s' => Ascii.eqb a b && str_prefix p' s'
  | String _ _, EmptyString => false
  end.

Fixpoint str_drop (n : nat) (s : string) : string :=
  match n, s with
  | O, _ => s
  | S _, EmptyString => EmptyString
  | S n', String _ s' => str_drop n' s'
  end.

Fixpoint has_substring (p s : string) : bool :=
  str_prefix p s ||
  match s with
  | EmptyString => false
  | String _ s' => has_substring p s'
  end.

Definition escape_char (c : ascii) : string :=
  if Ascii.eqb c "<" then "&lt;"
  else if Ascii.eqb c ">" then "&gt;"
  else if Ascii.eqb c "&" then "&amp;"
  else String c EmptyString.

Fixpoint escape (s : string) : string :=
  match s with
  | EmptyString => EmptyString
  | String c s' => escape_char c +:+ escape s'
  end.

(** A sanitizer to instantiate [clean] with.  It does what [bleach.clean]
    with its default arguments does on two kinds of text: a fragment that is
    one HTML comment is dropped (comments are stripped by default), and in
    text without markup a bare [<], [>] or [&] becomes an entity, so that
    ["tom & jerry"] becomes ["tom &amp; jerry"]. *)
Definition sample_clean (s : string) : string :=
  if str_prefix "<!--" s && negb (has_substring "-->" (str_take (String.length s - 3) s))
     && str_prefix "-->" (str_drop (String.length s - 3) s)
     && bool_decide (7 ≤ String.length s)%nat
  then EmptyString
  else escape s.

(** A digest to instantiate [md5hash] with: the bytes in hexadecimal, which
    is injective as a cryptographic digest is taken to be. *)
Definition hex_digit (n : N) : ascii :=
  if (n <? 10)%N then ascii_of_N (48 + n) else ascii_of_N (87 + n).

Fixpoint sample_hash (s : string) : string :=
  match s with
  | EmptyString => EmptyString
  | String c s' =>
      String (hex_digit (N_of_ascii c / 16)) (String (hex_digit (N_of_ascii c mod 16))
        (sample_hash s'))
  end.

Definition local_client (anon : bool) : DoflerClient :=
  mkClient "127.0.0.1" "8080" false anon "sensor1".

Definition remote_client (anon : bool) : DoflerClient :=
  mkClient "collector.example.org" "443" true anon "sensor1".

(** A parser to instantiate [json.loads] with: values are kept as their
    text, and the empty text does not parse. *)
Definition sample_json_loads (text : string) : option string :=
  if String.eqb text EmptyString then None else Some text.

(** ** Vocabulary of the properties *)

(** The calls of a list, one after the other, as a caller makes them. *)
Fixpoint run_all (ms : list (M unit)) : M unit :=
  match ms with
  | [] => mret tt
  | m :: ms' => m;; run_all ms'
  end.

(** The key of the duplicate test of [account]. *)
Definition triple (a : Account) : string * string * string :=
  (a_username a, a_password a, a_info a).

Definition same_triple (u p i : string) (a : Account) : bool :=
  String.eqb (a_username a) u && String.eqb (a_password a) p
  && String.eqb (a_info a) i.

(** How often the bytes [B] occur among reported contents. *)
Definition times (B : string) (contents : list string) : nat :=
  List.length (List.filter (String.eqb B) contents).

(** The sum of the occurrence counters of the rows. *)
Definition counter (rows : list Image) : Z :=
  List.fold_right (fun r acc => count r + acc) 0 rows.

(** No two image rows share their key. *)
Definition unique_keys (rows : list Image) : Prop :=
  forall h, (List.length (filter_by_md5sum h rows) <= 1)%nat.

(** What a sighting does to the row it finds. *)
Definition sighted (now : Z) (r : Image) : Image :=
  mkImage now (filetype r) (i_data r) (md5sum r) (count r + 1).

(** The upload of [image] raises inside the call: the path cannot be opened
    for reading, or the pool refuses the request. *)
Definition upload_raises (w : World) (path : string) : Prop :=
  (exists size, fs w !! path = Some (Dir size))
  \/ (exists bytes e, fs w !! path = Some (File bytes)
                     /\ net w (List.length (posts_of (trace w))) = SubmitRaises e).

(** The events a call added to the trace. *)
Definition added (w w' : World) (evs : list Event) : Prop :=
  trace w' = trace w ++ evs.

(** A call that worked on the local store: it opened a session and handed
    nothing to the pool. *)
Definition went_local (w w' : World) : Prop :=
  next_sid w' = S (next_sid w) /\ posts_of (trace w') = posts_of (trace w).

(** A call that issued one POST to [url] and left the store alone. *)
Definition went_remote (self : DoflerClient) (url : string) (w w' : World) : Prop :=
  (exists req, posts_of (trace w') = posts_of (trace w) ++ [req]
               /\ location req = location_of self url)
  /\ next_sid w' = next_sid w /\ sessions w' = sessions w /\ db w' = db w.

Definition routed (self : DoflerClient) (url : string) (w w' : World) : Prop :=
  if is_local self then went_local w w' else went_remote self url w w'.

(** The network answered the request with a response body. *)
Definition answered (w : World) (h : nat) (body : string) : Prop :=
  net w h = Submitted (Response body).

(** The exception a request ends in, when it does not get a response. *)
Definition failure_of (r : NetReply) : option Exn :=
  match r with
  | SubmitRaises e => Some e
  | Submitted (Failed e) => Some e
  | Submitted (Response _) => None
  end.

(** [".".join(fields)] *)
Fixpoint join_dot (fields : list string) : string :=
  match fields with
  | [] => EmptyString
  | f :: rest =>
      match rest with
      | [] => f
      | _ :: _ => f +:+ "." +:+ join_dot rest
      end
  end.

(** ['.' in s] *)
Fixpoint has_dot (s : string) : bool :=
  match s with
  | EmptyString => false
  | String c s' => Ascii.eqb c "."%char || has_dot s'
  end.

(** Every request among the events comes right after the debug line that
    shows its location. *)
Fixpoint posts_logged (evs : list Event) : bool :=
  match evs with
  | [] => true
  | EPost _ _ :: _ => false
  | e :: evs' =>
      match e, evs' with
      | ELog DEBUG msg, EPost _ req :: evs'' =>
          String.eqb msg ("CLIENT: " +:+ location req) && posts_logged evs''
      | _, _ => posts_logged evs'
      end
  end.

(** The requests whose response was waited for. *)
Fixpoint results_of (t : list Event) : list nat :=
  match t with
  | [] => []
  | EResult h :: t' => h :: results_of t'
  | _ :: t' => results_of t'
  end.

(** The five arguments of one [account] call. *)
Record AccountArgs : Type := mkArgs {
  arg_username : string;
  arg_password : string;
  arg_info : string;
  arg_proto : string;
  arg_parser : string
}.

Definition account_with (clean : string -> string) (self : DoflerClient)
    (a : AccountArgs) : M unit :=
  account clean self (arg_username a) (arg_password a) (arg_info a)
    (arg_proto a) (arg_parser a).

(** The row [account] stores for the arguments. *)
Definition row_of (clean : string -> string) (self : DoflerClient)
    (a : AccountArgs) : Account :=
  mkAccount (clean (arg_username a))
    (clean (anonymize_password (anonymize self) (arg_password a)))
    (clean (arg_info a)) (clean (arg_proto a)) (clean (arg_parser a)).

(** A call that hands one request to the pool and forgets it: it returns
    normally whatever becomes of the request, raises only what the pool
    raises on submission, waits for nothing and leaves the store alone. *)
Definition forgets (m : M unit) (w : World) : Prop :=
  let h := List.length (posts_of (trace w)) in
  (forall f, net w h = Submitted f -> (m w).1 = Returned tt)
  /\ (forall e, net w h = SubmitRaises e -> (m w).1 = Raised e)
  /\ List.length (posts_of (trace (m w).2)) = S h
  /\ results_of (trace (m w).2) = results_of (trace w)
  /\ db (m w).2 = db w /\ sessions (m w).2 = sessions w.

(** A call that only adds events to the trace, each request among them
    right after the debug line of its location. *)
Definition logs_its_posts {A} (m : M A) (w : World) : Prop :=
  exists evs, added w (m w).2 evs /\ posts_logged evs = true.


(** * Properties *)

Ltac run_monad :=
  unfold mbind, M_bind, bind, mret, M_ret, ret, raise, try_except,
    emit, log_debug, log_error; simpl.

Ltac unfold_setters :=
  unfold set_trace, set_sessions, set_db, set_next_sid, set_ticks; simpl.

(** ** Strings *)

Lemma append_String c s t : String c s +:+ t = String c (s +:+ t).
Proof. reflexivity. Qed.

Lemma append_empty t : EmptyString +:+ t = t.
Proof. reflexivity. Qed.

Ltac simpl_append := rewrite ?append_String, ?append_empty.

Lemma length_str_mul c n : String.length (str_mul (String c EmptyString) n) = n.
Proof.
  induction n as [|n IH]; simpl; [reflexivity|].
  simpl_append. simpl. now rewrite IH.
Qed.

Lemma get_str_mul c n k :
  (k < n)%nat -> String.get k (str_mul (String c EmptyString) n) = Some c.
Proof.
  revert k. induction n as [|n IH]; intros k Hk; [lia|].
  simpl. simpl_append.
  destruct k as [|k]; simpl; [reflexivity|]. apply IH. lia.
Qed.

Lemma anonymize_password_long password :
  (3 <= String.length password)%nat ->
  anonymize_password true password =
  str_take 3 password +:+ str_mul "*" (String.length password - 3).
Proof.
  intros H. unfold anonymize_password.
  now rewrite bool_decide_eq_true_2 by exact H.
Qed.

Lemma anonymize_password_short anon password :
  (String.length password < 3)%nat -> anonymize_password anon password = password.
Proof.
  intros H. unfold anonymize_password. destruct anon; [|reflexivity].
  rewrite bool_decide_eq_false_2; [reflexivity | lia].
Qed.

Lemma anonymize_password_length anon password :
  String.length (anonymize_password anon password) = String.length password.
Proof.
  unfold anonymize_password. destruct anon; [|reflexivity].
  case_bool_decide as H; [|reflexivity].
  destruct password as [|a [|b [|c rest]]]; simpl in *; try lia.
  simpl_append. simpl. rewrite Nat.sub_0_r, length_str_mul. reflexivity.
Qed.

Lemma anonymize_password_empty anon password :
  anonymize_password anon password = EmptyString <-> password = EmptyString.
Proof.
  split; intros H.
  - pose proof (anonymize_password_length anon password) as L.
    rewrite H in L. destruct password; [reflexivity | discriminate].
  - subst. now destruct anon.
Qed.

(** C3. The anonymizer is a function of the flag and the password alone.
    With the flag set and at least three characters, the result has the
    length of the password, its first three characters, and an asterisk at
    every later position; with the flag unset, or fewer than three
    characters, the result is the password.  ["abcdef"] becomes ["abc***"]
    and ["ab"] stays ["ab"]. *)
Theorem anonymize_password_spec (password : string) :
  ((3 <= String.length password)%nat ->
     String.length (anonymize_password true password) = String.length password
     /\ (forall k, (k < 3)%nat ->
           String.get k (anonymize_password true password) = String.get k password)
     /\ (forall k, (3 <= k < String.length password)%nat ->
           String.get k (anonymize_password true password) = Some "*"%char))
  /\ ((String.length password < 3)%nat ->
        anonymize_password true password = password)
  /\ anonymize_password false password = password
  /\ anonymize_password true "abcdef" = "abc***"
  /\ anonymize_password true "ab" = "ab".
Proof.
  repeat split; try reflexivity.
  - apply anonymize_password_length.
  - intros k Hk. rewrite anonymize_password_long by assumption.
    destruct password as [|a [|b [|c rest]]]; simpl in *; try lia.
    simpl_append.
    destruct k as [|[|[|k]]]; simpl; try reflexivity; lia.
  - intros k [Hk1 Hk2]. rewrite anonymize_password_long by assumption.
    destruct password as [|a [|b [|c rest]]]; simpl in *; try lia.
    simpl_append.
    destruct k as [|[|[|k]]]; try lia. simpl.
    apply get_str_mul. lia.
  - apply anonymize_password_short.
Qed.

Lemma anonymize_password_spec_witness :
  String.length (anonymize_password true "hunter2") = 7%nat
  /\ String.get 1 (anonymize_password true "hunter2") = Some "u"%char
  /\ String.get 5 (anonymize_password true "hunter2") = Some "*"%char
  /\ anonymize_password true "pw" = "pw".
Proof.
  destruct (anonymize_password_spec "hunter2") as [Hlong _].
  destruct (anonymize_password_spec "pw") as (_ & Hshort & _).
  destruct Hlong as (Hlen & Hhead & Htail); [simpl; lia|].
  split; [exact Hlen|].
  split; [apply (Hhead 1%nat); lia|].
  split; [apply (Htail 5%nat); simpl; lia|].
  apply Hshort. simpl. lia.
Defined.

(** ** The trace and the pool *)

Lemma posts_of_app t1 t2 : posts_of (t1 ++ t2) = posts_of t1 ++ posts_of t2.
Proof.
  induction t1 as [|e t1 IH]; [reflexivity|].
  destruct e; simpl; rewrite IH; reflexivity.
Qed.

(** [call] logs the location and hands one request to the pool; it raises
    only what the pool raises on submission. *)
Lemma call_run self url dat fls w :
  call self url dat fls w =
  let h := List.length (posts_of (trace w)) in
  (match net w h with
   | SubmitRaises e => Raised e
   | Submitted _ => Returned h
   end,
   set_trace (trace w ++ [ELog DEBUG ("CLIENT: " +:+ location_of self url);
                          EPost h (mkRequest (location_of self url) dat fls)]) w).
Proof.
  unfold call, opener_post. run_monad.
  rewrite posts_of_app. simpl. rewrite app_nil_r.
  unfold_setters. rewrite <- app_assoc. simpl.
  destruct (net w _); reflexivity.
Qed.

Lemma is_local_spec self :
  is_local self = true <-> host self = "localhost" \/ host self = "127.0.0.1".
Proof.
  unfold is_local. rewrite bool_decide_eq_true.
  rewrite !elem_of_cons, elem_of_nil. tauto.
Qed.

Section Account.

Variable clean : string -> string.

(** ** [account] *)

Lemma account_local_run self u p i pr pa w :
  is_local self = true ->
  account clean self u p i pr pa w =
  let p' := anonymize_password (anonymize self) p in
  let sid := next_sid w in
  if bool_decide
       (q_count (filter_by_info (clean i)
                  (filter_by_password (clean p')
                    (filter_by_username (clean u) (accounts (db w))))) < 1)
     && negb (String.eqb p' EmptyString)
  then
    (Returned tt,
     mkWorld (fs w) (clock w) (ticks w) (net w)
       (mkDatabase
          (accounts (db w) ++
             [mkAccount (clean u) (clean p') (clean i) (clean pr) (clean pa)])
          (images (db w)) (stats (db w)))
       (<[sid := []]> (sessions w)) (S sid)
       (trace w ++ [ESessionOpen sid; ECommit sid;
                    ELog DEBUG ("DATABASE: Added Account: " +:+ u +:+ ":" +:+ p'
                      +:+ ":" +:+ i +:+ ":" +:+ pr +:+ ":" +:+ pa)]))
  else
    (Returned tt,
     mkWorld (fs w) (clock w) (ticks w) (net w) (db w)
       (<[sid := []]> (sessions w)) (S sid) (trace w ++ [ESessionOpen sid])).
Proof.
  intros Hl. unfold account. rewrite Hl. run_monad.
  unfold Session, query_Account. simpl.
  destruct (bool_decide _ && _); simpl; [|reflexivity].
  unfold s_pend, s_commit. unfold_setters.
  rewrite lookup_insert_eq. simpl. rewrite lookup_insert_eq. run_monad.
  unfold_setters.
  rewrite !insert_insert_eq. rewrite <- !app_assoc. reflexivity.
Qed.

Lemma account_remote_run self u p i pr pa w :
  is_local self = false ->
  account clean self u p i pr pa w =
  let p' := anonymize_password (anonymize self) p in
  let h := List.length (posts_of (trace w)) in
  let req := mkRequest (location_of self "/post/account")
               {[ "username" := VStr u; "password" := VStr p';
                  "info" := VStr i; "proto" := VStr pr; "parser" := VStr pa ]} ∅ in
  (match net w h with
   | SubmitRaises e => Raised e
   | Submitted _ => Returned tt
   end,
   set_trace (trace w ++ [ELog DEBUG ("CLIENT: " +:+ location_of self "/post/account");
                          EPost h req]) w).
Proof.
  intros Hl. unfold account. rewrite Hl.
  unfold mbind, M_bind, bind. rewrite call_run. simpl.
  destruct (net w _); reflexivity.
Qed.

(** The three chained [filter_by] keep the rows that agree on the triple. *)
Lemma chained_filters u p i rows :
  filter_by_info i (filter_by_password p (filter_by_username u rows)) =
  List.filter (same_triple u p i) rows.
Proof.
  unfold filter_by_info, filter_by_password, filter_by_username, same_triple.
  induction rows as [|r rows IH]; [reflexivity|]. simpl.
  destruct (String.eqb (a_username r) u); simpl; [|exact IH].
  destruct (String.eqb (a_password r) p); simpl; [|exact IH].
  destruct (String.eqb (a_info r) i); simpl; [|exact IH].
  now rewrite IH.
Qed.

Lemma same_triple_spec u p i r :
  same_triple u p i r = true <-> triple r = (u, p, i).
Proof.
  unfold same_triple, triple. rewrite !andb_true_iff, !String.eqb_eq.
  split; [intros [[-> ->] ->]; reflexivity | intros [= -> -> ->]; auto].
Qed.

Lemma count_lt_1_existsb {A} (f : A -> bool) (rows : list A) :
  bool_decide (q_count (List.filter f rows) < 1) = negb (existsb f rows).
Proof.
  unfold q_count. induction rows as [|r rows IH]; [reflexivity|]. simpl.
  destruct (f r); simpl; [|exact IH].
  apply bool_decide_eq_false_2. lia.
Qed.

Lemma filter_none_not_in u p i rows :
  List.filter (same_triple u p i) rows = [] ->
  (u, p, i) ∉ List.map triple rows.
Proof.
  induction rows as [|r rows IH]; simpl; intros H; [apply not_elem_of_nil|].
  destruct (same_triple u p i r) eqn:E; [discriminate|].
  apply not_elem_of_cons. split; [|auto].
  intros Heq. symmetry in Heq. apply same_triple_spec in Heq. congruence.
Qed.

Lemma NoDup_triple_filter u p i rows :
  NoDup (List.map triple rows) ->
  (List.length (List.filter (same_triple u p i) rows) <= 1)%nat.
Proof.
  induction rows as [|r rows IH]; simpl; intros Hnd; [lia|].
  apply NoDup_cons in Hnd as [Hnotin Hnd].
  destruct (same_triple u p i r) eqn:E; [|auto].
  apply same_triple_spec in E. simpl.
  destruct (List.filter (same_triple u p i) rows) as [|r' l] eqn:F; [simpl; lia|].
  exfalso. apply Hnotin. rewrite E.
  assert (Hin : In r' (List.filter (same_triple u p i) rows)) by (rewrite F; left; reflexivity).
  apply filter_In in Hin as [Hin Hr'].
  apply same_triple_spec in Hr'. rewrite <- Hr'.
  apply list_elem_of_In. apply in_map. exact Hin.
Qed.

Lemma NoDup_triple_snoc rows r :
  NoDup (List.map triple rows) ->
  List.filter (same_triple (a_username r) (a_password r) (a_info r)) rows = [] ->
  NoDup (List.map triple (rows ++ [r])).
Proof.
  intros Hnd Hf. rewrite map_app. apply NoDup_app. split; [exact Hnd|].
  split; [|apply NoDup_singleton].
  intros t Ht Ht'. simpl in Ht'. apply list_elem_of_singleton in Ht'. subst t.
  now apply filter_none_not_in in Hf.
Qed.

End Account.

Section AccountClaims.

Variable clean : string -> string.

(** C1, as the code has it.  On a client whose host is not a loopback name,
    [account] issues one POST to [/post/account] whose password field is the
    password after the anonymization step: the caller's password when the
    flag is unset or the password is shorter than three characters, and its
    first three characters followed by asterisks otherwise.  The other four
    fields are the caller's, and the store is not touched. *)
Theorem account_remote_password self u p i pr pa w :
  is_local self = false ->
  let w' := (account clean self u p i pr pa w).2 in
  let p' := anonymize_password (anonymize self) p in
  posts_of (trace w') =
    posts_of (trace w) ++
      [mkRequest (location_of self "/post/account")
         {[ "username" := VStr u; "password" := VStr p';
            "info" := VStr i; "proto" := VStr pr; "parser" := VStr pa ]} ∅]
  /\ (anonymize self = false \/ (String.length p < 3)%nat -> p' = p)
  /\ (anonymize self = true -> (3 <= String.length p)%nat ->
        p' = str_take 3 p +:+ str_mul "*" (String.length p - 3))
  /\ db w' = db w.
Proof.
  intros Hl. simpl. rewrite account_remote_run by exact Hl. simpl.
  rewrite posts_of_app. simpl. repeat split.
  - intros [Ha | Hs]; [rewrite Ha; reflexivity|].
    now apply anonymize_password_short.
  - intros -> Hlen. now apply anonymize_password_long.
Qed.

(** C10.  In local mode the test for an existing record looks for a stored
    row equal to the sanitized username, the sanitized (already anonymized)
    password and the sanitized info; when there is none and the anonymized
    password is not empty, the row appended to the table holds the five
    fields after sanitization, and otherwise the table is unchanged.  Hence
    with anonymization off, a password that the sanitizer changes is stored
    in a form that differs from what the caller supplied. *)
Theorem account_sanitized self u p i pr pa w :
  is_local self = true ->
  let w' := (account clean self u p i pr pa w).2 in
  let p' := anonymize_password (anonymize self) p in
  let known := existsb (same_triple (clean u) (clean p') (clean i)) (accounts (db w)) in
  accounts (db w') =
    (if negb known && negb (String.eqb p' EmptyString)
     then accounts (db w) ++
            [mkAccount (clean u) (clean p') (clean i) (clean pr) (clean pa)]
     else accounts (db w))
  /\ (anonymize self = false -> known = false -> p <> EmptyString -> clean p <> p ->
      exists r, List.last (accounts (db w')) r = r
                /\ r ∈ accounts (db w')
                /\ a_password r = clean p /\ a_password r <> p).
Proof.
  intros Hl. simpl.
  rewrite account_local_run by exact Hl. simpl.
  rewrite chained_filters, count_lt_1_existsb.
  split.
  - destruct (negb _ && negb _); reflexivity.
  - intros Ha Hk Hp Hc. rewrite Ha in *. simpl in *. rewrite Hk. simpl.
    apply String.eqb_neq in Hp. rewrite Hp. simpl.
    exists (mkAccount (clean u) (clean p) (clean i) (clean pr) (clean pa)).
    rewrite last_last. repeat split; [|assumption].
    apply elem_of_app. right. apply list_elem_of_singleton. reflexivity.
Qed.

(** Two identical calls.  In local mode, from a table in which no two
    rows share their (username, password, info) triple, two calls of
    [account] with the same arguments both return, leave the table with that
    property, and the second adds nothing; when the password is not empty
    the table then holds exactly one row with the sanitized triple of the
    call.  A call whose password is empty before sanitization (which is so
    exactly when the caller's password is empty) adds no row. *)
Theorem account_dedup self u p i pr pa w :
  is_local self = true ->
  NoDup (List.map triple (accounts (db w))) ->
  let p' := anonymize_password (anonymize self) p in
  exists w1 w2,
    account clean self u p i pr pa w = (Returned tt, w1)
    /\ account clean self u p i pr pa w1 = (Returned tt, w2)
    /\ NoDup (List.map triple (accounts (db w2)))
    /\ accounts (db w2) = accounts (db w1)
    /\ (p' <> EmptyString ->
        List.length (List.filter (same_triple (clean u) (clean p') (clean i))
                       (accounts (db w2))) = 1%nat)
    /\ (p' = EmptyString -> accounts (db w1) = accounts (db w))
    /\ (p' = EmptyString <-> p = EmptyString).
Proof.
  intros Hl Hnd p'.
  set (row := mkAccount (clean u) (clean p') (clean i) (clean pr) (clean pa)).
  set (hit := same_triple (clean u) (clean p') (clean i)).
  (* the table after one call *)
  assert (H1 : exists w1,
    account clean self u p i pr pa w = (Returned tt, w1)
    /\ NoDup (List.map triple (accounts (db w1)))
    /\ (p' <> EmptyString -> List.length (List.filter hit (accounts (db w1))) = 1%nat)
    /\ (p' = EmptyString -> accounts (db w1) = accounts (db w))).
  { rewrite account_local_run by exact Hl. fold p'. simpl.
    rewrite chained_filters. fold hit.
    pose proof (NoDup_triple_filter (clean u) (clean p') (clean i) _ Hnd) as Hle.
    fold hit in Hle. unfold q_count.
    case_bool_decide as Hc; simpl.
    - assert (Hnone : List.filter hit (accounts (db w)) = []).
      { destruct (List.filter hit (accounts (db w))); [reflexivity | simpl in Hc; lia]. }
      destruct (String.eqb p' EmptyString) eqn:Ep; simpl.
      + apply String.eqb_eq in Ep.
        eexists. split; [reflexivity|]. simpl.
        split; [exact Hnd|]. split; [congruence | reflexivity].
      + apply String.eqb_neq in Ep.
        eexists. split; [reflexivity|]. simpl.
        split; [apply NoDup_triple_snoc; [exact Hnd | exact Hnone]|].
        split; [|congruence].
        intros _. rewrite List.filter_app, Hnone. simpl.
        unfold hit at 1, same_triple. simpl. now rewrite !String.eqb_refl.
    - eexists. split; [reflexivity|]. simpl.
      split; [exact Hnd|]. split; [intros _; lia | reflexivity]. }
  destruct H1 as (w1 & E1 & Hnd1 & Hone & Hempty).
  (* the second call finds the row, or an empty password again *)
  exists w1.
  rewrite (account_local_run clean self u p i pr pa w1) by exact Hl. fold p'. simpl.
  rewrite chained_filters. fold hit. unfold q_count.
  destruct (String.eqb p' EmptyString) eqn:Ep.
  - apply String.eqb_eq in Ep. rewrite andb_false_r.
    eexists. split; [exact E1|]. split; [reflexivity|]. simpl.
    split; [exact Hnd1|]. split; [reflexivity|].
    split; [congruence|]. split; [exact Hempty|].
    apply anonymize_password_empty.
  - apply String.eqb_neq in Ep. specialize (Hone Ep).
    rewrite bool_decide_eq_false_2 by (rewrite Hone; lia). simpl.
    eexists. split; [exact E1|]. split; [reflexivity|]. simpl.
    split; [exact Hnd1|]. split; [reflexivity|].
    split; [intros _; exact Hone|]. split; [congruence|].
    apply anonymize_password_empty.
Qed.

End AccountClaims.

(** ** [image] *)

Section Image.

Variable md5hash : string -> string.

Lemma image_missing self path w :
  fs w !! path = None ->
  image md5hash self path w =
  (Returned tt,
   set_trace (trace w ++ [ELog ERROR ("API: " +:+ path +:+ " doesnt exist")]) w).
Proof.
  intros Hf. unfold image, os_path_exists. run_monad.
  rewrite Hf. rewrite bool_decide_eq_false_2; [reflexivity|].
  intros [x Hx]. discriminate.
Qed.

Lemma image_local_run self path bytes w :
  is_local self = true ->
  fs w !! path = Some (File bytes) ->
  image md5hash self path w =
  let md5 := md5hash bytes in
  let sid := next_sid w in
  let now := clock w (ticks w) in
  match filter_by_md5sum md5 (images (db w)) with
  | [] =>
      (Returned tt,
       mkWorld (fs w) (clock w) (S (ticks w)) (net w)
         (mkDatabase (accounts (db w))
            (images (db w) ++ [Image_new now (last_field path) bytes md5])
            (stats (db w)))
         (delete sid (sessions w)) (S sid)
         (trace w ++ [ESessionOpen sid;
                      ELog DEBUG ("DATABASE: Added Image " +:+ md5);
                      ECommit sid; EClose sid]))
  | [r] =>
      (Returned tt,
       mkWorld (fs w) (clock w) (S (ticks w)) (net w)
         (mkDatabase (accounts (db w))
            (List.map (update_image (sighted now r)) (images (db w)))
            (stats (db w)))
         (delete sid (sessions w)) (S sid)
         (trace w ++ [ESessionOpen sid;
                      ELog DEBUG ("DATABASE: Updated Image " +:+ md5sum r);
                      ECommit sid; EClose sid]))
  | _ :: _ :: _ =>
      (Raised MultipleResultsFound,
       mkWorld (fs w) (clock w) (ticks w) (net w) (db w)
         (<[sid := []]> (sessions w)) (S sid) (trace w ++ [ESessionOpen sid]))
  end.
Proof.
  intros Hl Hf. unfold image, os_path_exists. run_monad.
  rewrite Hf. rewrite bool_decide_eq_true_2 by (eexists; reflexivity).
  rewrite Hl. unfold open_rb. rewrite Hf. simpl.
  unfold Session, query_Image, q_count. simpl.
  destruct (filter_by_md5sum (md5hash bytes) (images (db w))) as [|r [|r2 l]] eqn:F.
  - rewrite bool_decide_eq_false_2 by (simpl; lia).
    unfold time_time, s_pend, s_commit, s_close. unfold_setters.
    rewrite lookup_insert_eq. run_monad. unfold_setters.
    rewrite lookup_insert_eq. simpl.
    rewrite !delete_insert_eq. rewrite <- !app_assoc. reflexivity.
  - rewrite bool_decide_eq_true_2 by (simpl; lia). simpl. rewrite F. simpl.
    unfold time_time, s_pend, s_commit, s_close. unfold_setters.
    rewrite lookup_insert_eq. run_monad. unfold_setters.
    rewrite lookup_insert_eq. simpl.
    rewrite !delete_insert_eq. rewrite <- !app_assoc. reflexivity.
  - rewrite bool_decide_eq_true_2 by (simpl; lia). simpl. rewrite F. simpl.
    reflexivity.
Qed.

Lemma image_remote_run self path entry w :
  is_local self = false ->
  fs w !! path = Some entry ->
  image md5hash self path w =
  let h := List.length (posts_of (trace w)) in
  let attempt :=
    [ELog DEBUG ("CLIENT: " +:+ location_of self "/post/image");
     EPost h (mkRequest (location_of self "/post/image")
                {[ "filetype" := VStr (last_field path) ]}
                {[ "file" := mkFileObj path
                     match entry with File bytes => bytes | Dir _ => EmptyString end ]})] in
  let failed size :=
    [ELog ERROR ("API: Upload Failed. " +:+ path +:+ "="
                 +:+ pretty (size `div` 1024) +:+ "kb")] in
  (Returned tt,
   match entry with
   | File bytes =>
       match net w h with
       | Submitted _ => set_trace (trace w ++ attempt) w
       | SubmitRaises _ =>
           set_trace (trace w ++ attempt ++ failed (Z.of_nat (String.length bytes))) w
       end
   | Dir size => set_trace (trace w ++ failed size) w
   end).
Proof.
  intros Hl Hf. unfold image, os_path_exists. run_monad.
  rewrite Hf. rewrite bool_decide_eq_true_2 by (eexists; reflexivity).
  rewrite Hl. unfold open_rb. rewrite Hf.
  destruct entry as [bytes | size]; simpl.
  - rewrite call_run. simpl. destruct (net w _); simpl.
    + unfold os_path_getsize. simpl. rewrite Hf. run_monad. unfold_setters.
      rewrite <- app_assoc. reflexivity.
    + reflexivity.
  - unfold os_path_getsize. rewrite Hf. reflexivity.
Qed.

End Image.

(** ** The image table: keys and counters *)

Lemma counter_app rows1 rows2 : counter (rows1 ++ rows2) = counter rows1 + counter rows2.
Proof.
  unfold counter. induction rows1 as [|r rows1 IH]; simpl; [reflexivity|].
  rewrite IH. lia.
Qed.

Lemma filter_md5_snoc h rows r :
  filter_by_md5sum h (rows ++ [r]) =
  filter_by_md5sum h rows ++ (if String.eqb (md5sum r) h then [r] else []).
Proof. unfold filter_by_md5sum. rewrite List.filter_app. reflexivity. Qed.

Lemma filter_md5_key h rows r :
  In r (filter_by_md5sum h rows) -> md5sum r = h.
Proof.
  unfold filter_by_md5sum. intros H. apply filter_In in H as [_ H].
  now apply String.eqb_eq.
Qed.

Lemma filter_md5_update h r' rows :
  filter_by_md5sum h (List.map (update_image r') rows) =
  if String.eqb (md5sum r') h
  then List.map (fun _ => r') (filter_by_md5sum h rows)
  else filter_by_md5sum h rows.
Proof.
  unfold filter_by_md5sum, update_image.
  induction rows as [|r rows IH]; simpl; [now destruct (String.eqb _ _)|].
  destruct (String.eqb (md5sum r) (md5sum r')) eqn:E1.
  - apply String.eqb_eq in E1. rewrite E1.
    destruct (String.eqb (md5sum r') h) eqn:E2; simpl; rewrite IH; reflexivity.
  - destruct (String.eqb (md5sum r') h) eqn:E2.
    + apply String.eqb_eq in E2. subst h. rewrite E1. exact IH.
    + destruct (String.eqb (md5sum r) h); simpl; rewrite IH; reflexivity.
Qed.

Section ImageClaims.

Variable md5hash : string -> string.

(** One sighting in local mode: the call returns, keys stay unique, no row
    disappears, the key of the bytes has its row, and the counter under that
    key goes up by one while the counters under every other key stay. *)
Lemma image_local_step self path bytes w :
  is_local self = true ->
  fs w !! path = Some (File bytes) ->
  unique_keys (images (db w)) ->
  exists w',
    image md5hash self path w = (Returned tt, w')
    /\ fs w' = fs w
    /\ unique_keys (images (db w'))
    /\ (forall h,
          counter (filter_by_md5sum h (images (db w'))) =
          counter (filter_by_md5sum h (images (db w)))
          + (if String.eqb (md5hash bytes) h then 1 else 0))
    /\ (forall h,
          (List.length (filter_by_md5sum h (images (db w)))
           <= List.length (filter_by_md5sum h (images (db w'))))%nat)
    /\ List.length (filter_by_md5sum (md5hash bytes) (images (db w'))) = 1%nat.
Proof.
  intros Hl Hf Hu. rewrite (image_local_run md5hash self path bytes w Hl Hf). simpl.
  pose proof (Hu (md5hash bytes)) as Hle.
  destruct (filter_by_md5sum (md5hash bytes) (images (db w))) as [|r [|r2 l]] eqn:F;
    [| |simpl in Hle; lia].
  - eexists. split; [reflexivity|]. simpl. split; [reflexivity|].
    split; [|split; [|split]].
    + intros h. rewrite filter_md5_snoc, length_app. simpl.
      destruct (String.eqb (md5hash bytes) h) eqn:E; simpl.
      * apply String.eqb_eq in E. subst h. rewrite F. simpl. lia.
      * specialize (Hu h). lia.
    + intros h. rewrite filter_md5_snoc, counter_app. simpl.
      destruct (String.eqb (md5hash bytes) h); simpl; lia.
    + intros h. rewrite filter_md5_snoc, length_app. lia.
    + rewrite filter_md5_snoc, F. simpl. now rewrite String.eqb_refl.
  - assert (Hk : md5sum r = md5hash bytes).
    { apply (filter_md5_key _ (images (db w))). rewrite F. now left. }
    eexists. split; [reflexivity|]. simpl. split; [reflexivity|].
    split; [|split; [|split]].
    + intros h. rewrite filter_md5_update. simpl. rewrite Hk.
      destruct (String.eqb (md5hash bytes) h); [rewrite length_map|]; apply Hu.
    + intros h. rewrite filter_md5_update. simpl. rewrite Hk.
      destruct (String.eqb (md5hash bytes) h) eqn:E; [|lia].
      apply String.eqb_eq in E. subst h. rewrite F. simpl. lia.
    + intros h. rewrite filter_md5_update. simpl. rewrite Hk.
      destruct (String.eqb (md5hash bytes) h); [rewrite length_map|]; lia.
    + rewrite filter_md5_update. simpl. rewrite Hk.
      rewrite String.eqb_refl, F. reflexivity.
Qed.

(** Any number of sightings, of any contents. *)
Lemma image_local_steps self paths : forall contents w,
  is_local self = true ->
  Forall2 (fun path bytes => fs w !! path = Some (File bytes)) paths contents ->
  unique_keys (images (db w)) ->
  exists w',
    run_all (List.map (image md5hash self) paths) w = (Returned tt, w')
    /\ unique_keys (images (db w'))
    /\ (forall h,
          counter (filter_by_md5sum h (images (db w'))) =
          counter (filter_by_md5sum h (images (db w)))
          + Z.of_nat (List.length
                        (List.filter (fun b => String.eqb (md5hash b) h) contents)))
    /\ (forall h,
          (List.length (filter_by_md5sum h (images (db w)))
           <= List.length (filter_by_md5sum h (images (db w'))))%nat)
    /\ (forall b, In b contents ->
          List.length (filter_by_md5sum (md5hash b) (images (db w'))) = 1%nat).
Proof.
  induction paths as [|path paths IH]; intros contents w Hl Hall Hu.
  - apply Forall2_nil_inv_l in Hall. subst contents.
    exists w. simpl.
    split; [reflexivity|]. split; [exact Hu|].
    split; [intros; lia|]. split; [intros; lia | intros b []].
  - apply Forall2_cons_inv_l in Hall as (bytes & contents' & Hf & Hall & ->).
    destruct (image_local_step self path bytes w Hl Hf Hu)
      as (w1 & E1 & Hfs & Hu1 & Hc1 & Hm1 & Hn1).
    destruct (IH contents' w1 Hl) as (w2 & E2 & Hu2 & Hc2 & Hm2 & Hn2);
      [rewrite Hfs; exact Hall | exact Hu1 |].
    exists w2. split; [|split; [exact Hu2|split; [|split]]].
    + simpl. unfold mbind, M_bind, bind. rewrite E1. exact E2.
    + intros h. rewrite Hc2, Hc1. simpl.
      destruct (String.eqb (md5hash bytes) h); simpl; lia.
    + intros h. specialize (Hm1 h). specialize (Hm2 h). lia.
    + intros b [<- | Hb]; [|auto].
      pose proof (Hu2 (md5hash bytes)). pose proof (Hm2 (md5hash bytes)). lia.
Qed.

Lemma times_by_digest B contents :
  (forall b, b ∈ contents -> md5hash b = md5hash B -> b = B) ->
  List.length (List.filter (fun b => String.eqb (md5hash b) (md5hash B)) contents)
  = times B contents.
Proof.
  unfold times. induction contents as [|b contents IH]; intros Hinj; [reflexivity|].
  assert (IH' := IH (fun b' Hb' => Hinj b' (list_elem_of_further _ _ _ Hb'))).
  simpl. destruct (String.eqb (md5hash b) (md5hash B)) eqn:E.
  - apply String.eqb_eq in E. apply Hinj in E; [|now left]. subst b.
    rewrite String.eqb_refl. simpl. now rewrite IH'.
  - destruct (String.eqb B b) eqn:E'; [|exact IH'].
    apply String.eqb_eq in E'. subst b. now rewrite String.eqb_refl in E.
Qed.

(** C2.  In local mode, on a store that holds no image yet, any sequence of
    [image] calls on readable files returns normally.  For bytes [B] whose
    digest no other reported content shares, at most one row is then keyed
    by the digest of [B], the counter of such a row is the number of times
    [B] was reported, and the row exists as soon as [B] was reported once.
    Reporting [B] twice and nothing else leaves exactly one row, keyed by
    the digest of [B] and holding [B], with counter 2. *)
Theorem image_dedup self paths contents B w :
  is_local self = true ->
  images (db w) = [] ->
  Forall2 (fun path bytes => fs w !! path = Some (File bytes)) paths contents ->
  (forall b, b ∈ contents -> md5hash b = md5hash B -> b = B) ->
  exists w',
    run_all (List.map (image md5hash self) paths) w = (Returned tt, w')
    /\ let found := filter_by_md5sum (md5hash B) (images (db w')) in
       (List.length found <= 1)%nat
       /\ (forall r, r ∈ found -> count r = Z.of_nat (times B contents))
       /\ ((0 < times B contents)%nat -> List.length found = 1%nat)
       /\ (contents = [B; B] ->
           exists r, images (db w') = [r] /\ count r = 2
                     /\ md5sum r = md5hash B /\ i_data r = B).
Proof.
  intros Hl Hempty Hall Hinj.
  destruct (image_local_steps self paths contents w Hl Hall)
    as (w' & E & Hu & Hc & _ & Hn).
  { intros h. rewrite Hempty. simpl. lia. }
  exists w'. split; [exact E|]. simpl.
  specialize (Hc (md5hash B)). rewrite Hempty in Hc. simpl in Hc.
  rewrite times_by_digest in Hc by exact Hinj.
  split; [apply Hu|]. split; [|split].
  - intros r Hr. pose proof (Hu (md5hash B)) as Hle.
    destruct (filter_by_md5sum (md5hash B) (images (db w'))) as [|r1 [|r2 l]];
      [inversion Hr | | simpl in Hle; lia].
    apply list_elem_of_singleton in Hr. subst r1. simpl in Hc. lia.
  - intros Hpos. apply Hn. unfold times in Hpos.
    destruct (List.filter (String.eqb B) contents) as [|b l] eqn:F; [simpl in Hpos; lia|].
    assert (Hb : In b (List.filter (String.eqb B) contents)) by (rewrite F; now left).
    apply filter_In in Hb as [Hb Hb']. apply String.eqb_eq in Hb'. now subst b.
  - intros ->.
    apply Forall2_cons_inv_r in Hall as (p1 & ps & H1 & Hall & ->).
    apply Forall2_cons_inv_r in Hall as (p2 & ps' & H2 & Hall & ->).
    apply Forall2_nil_inv_r in Hall. subst ps'.
    simpl in E. unfold mbind, M_bind, bind in E.
    rewrite (image_local_run md5hash self p1 B w Hl H1) in E. simpl in E.
    rewrite Hempty in E. simpl in E.
    match type of E with
    | context [image md5hash self p2 ?v] =>
        rewrite (image_local_run md5hash self p2 B v Hl H2) in E
    end. simpl in E.
    rewrite String.eqb_refl in E. simpl in E.
    injection E as <-. simpl.
    unfold update_image. simpl. rewrite String.eqb_refl.
    eexists. split; [reflexivity|]. simpl. repeat split.
Qed.

End ImageClaims.

Section ImageErrors.

Variable md5hash : string -> string.

(** What [image] contains.  When the path does not exist, [image] logs one
    error and returns normally, with nothing stored, opened or sent.  On a
    client that is not local, when the path exists, [image] returns normally
    whatever happens: nothing is stored, at most one request is handed to
    the pool, and when the upload raises inside the call (the file cannot be
    opened, or the pool refuses the request) the events of the call end with
    the logged error; otherwise they are the one request, handed over and
    not awaited, with no error logged. *)
Theorem image_failures_contained self path w :
  (fs w !! path = None ->
     exists w',
       image md5hash self path w = (Returned tt, w')
       /\ added w w' [ELog ERROR ("API: " +:+ path +:+ " doesnt exist")]
       /\ db w' = db w /\ sessions w' = sessions w /\ next_sid w' = next_sid w)
  /\ (is_local self = false -> is_Some (fs w !! path) ->
      exists w' evs,
        image md5hash self path w = (Returned tt, w')
        /\ added w w' evs
        /\ db w' = db w /\ sessions w' = sessions w /\ next_sid w' = next_sid w
        /\ (List.length (posts_of evs) <= 1)%nat
        /\ (upload_raises w path ->
            exists msg, List.last evs (ELog DEBUG EmptyString) = ELog ERROR msg)
        /\ (~ upload_raises w path ->
            exists h req, evs = [ELog DEBUG ("CLIENT: " +:+ location_of self "/post/image");
                                 EPost h req]
                          /\ location req = location_of self "/post/image")).
Proof.
  split.
  - intros Hf. rewrite image_missing by exact Hf.
    eexists. split; [reflexivity|]. unfold added. simpl. auto.
  - intros Hl [entry Hf].
    rewrite (image_remote_run md5hash self path entry w Hl Hf). simpl.
    destruct entry as [bytes | size].
    + destruct (net w (List.length (posts_of (trace w)))) as [e | f] eqn:En.
      * eexists. eexists. split; [reflexivity|]. unfold added. simpl.
        split; [reflexivity|]. repeat split; auto.
        -- intros _. eexists. reflexivity.
        -- intros Hn. exfalso. apply Hn. right. exists bytes, e. auto.
      * eexists. eexists. split; [reflexivity|]. unfold added. simpl.
        split; [reflexivity|]. repeat split; auto.
        -- intros [[size Hd] | (b & e & _ & He)]; congruence.
        -- intros _. eexists. eexists. split; reflexivity.
    + eexists. eexists. split; [reflexivity|]. unfold added. simpl.
      split; [reflexivity|]. repeat split; auto.
      * intros _. eexists. reflexivity.
      * intros Hn. exfalso. apply Hn. left. exists size. exact Hf.
Qed.

End ImageErrors.

(** ** [stat] *)

Lemma stat_local_run self proto n w :
  is_local self = true ->
  stat self proto n w =
  let sid := next_sid w in
  (Returned tt,
   mkWorld (fs w) (clock w) (S (ticks w)) (net w)
     (mkDatabase (accounts (db w)) (images (db w))
        (stats (db w) ++ [mkStat proto (username self) n (clock w (ticks w))]))
     (delete sid (sessions w)) (S sid)
     (trace w ++ [ESessionOpen sid; ECommit sid; EClose sid;
                  ELog DEBUG ("DATABASE: Added Stat " +:+ proto +:+ ":" +:+ pretty n
                              +:+ ":" +:+ username self)])).
Proof.
  intros Hl. unfold stat. rewrite Hl. run_monad.
  unfold Session, Stat_new, time_time, s_pend, s_commit, s_close. run_monad.
  unfold_setters. rewrite lookup_insert_eq. simpl. rewrite lookup_insert_eq. run_monad.
  unfold_setters. rewrite !delete_insert_eq. rewrite <- !app_assoc. reflexivity.
Qed.

Lemma stat_remote_run self proto n w :
  is_local self = false ->
  stat self proto n w =
  let h := List.length (posts_of (trace w)) in
  let req := mkRequest (location_of self "/post/stat")
               {[ "proto" := VStr proto; "count" := VInt n;
                  "username" := VStr (username self) ]} ∅ in
  (match net w h with
   | SubmitRaises e => Raised e
   | Submitted _ => Returned tt
   end,
   set_trace (trace w ++ [ELog DEBUG ("CLIENT: " +:+ location_of self "/post/stat");
                          EPost h req]) w).
Proof.
  intros Hl. unfold stat. rewrite Hl.
  unfold mbind, M_bind, bind. rewrite call_run. simpl.
  destruct (net w _); reflexivity.
Qed.

(** C9.  In local mode [n] calls of [stat] with the same arguments all
    return and append [n] rows to the table, one per call, each with the
    protocol, the sensor name, the count and the time of its call; the rows
    that were there stay, so the table grows by exactly [n]. *)
Theorem stat_appends self proto cnt (n : nat) :
  forall w,
  is_local self = true ->
  exists w',
    run_all (replicate n (stat self proto cnt)) w = (Returned tt, w')
    /\ stats (db w') =
         stats (db w) ++
           List.map (fun k => mkStat proto (username self) cnt (clock w (ticks w + k)%nat))
             (seq 0 n)
    /\ List.length (stats (db w')) = (List.length (stats (db w)) + n)%nat.
Proof.
  induction n as [|n IH]; intros w Hl.
  - exists w. simpl. rewrite app_nil_r, Nat.add_0_r. auto.
  - simpl. unfold mbind, M_bind, bind. rewrite stat_local_run by exact Hl. simpl.
    match goal with
    | |- context [run_all _ ?v] => destruct (IH v Hl) as (w' & E & Hs & Hlen)
    end.
    exists w'. split; [exact E|]. simpl in Hs, Hlen.
    split.
    + rewrite Hs, <- app_assoc. simpl. rewrite Nat.add_0_r.
      do 2 f_equal. rewrite <- seq_shift, map_map.
      apply map_ext. intros k. now rewrite Nat.add_succ_r.
    + rewrite Hlen, length_app. simpl. lia.
Qed.

(** ** Calls that wait for the response *)

Lemma login_run self u p w :
  login self u p w =
  let h := List.length (posts_of (trace w)) in
  let sent :=
    [ELog DEBUG ("CLIENT: " +:+ location_of self "/post/login");
     EPost h (mkRequest (location_of self "/post/login")
                {[ "username" := VStr u; "password" := VStr p ]} ∅)] in
  match net w h with
  | SubmitRaises e => (Raised e, set_trace (trace w ++ sent) w)
  | Submitted (Response _) => (Returned tt, set_trace (trace w ++ sent ++ [EResult h]) w)
  | Submitted (Failed e) => (Raised e, set_trace (trace w ++ sent ++ [EResult h]) w)
  end.
Proof.
  unfold login. unfold mbind, M_bind, bind. rewrite call_run. simpl.
  destruct (net w _) as [e | f] eqn:En; [reflexivity|].
  unfold result. simpl. rewrite En. unfold_setters. rewrite <- app_assoc. simpl.
  destruct f; reflexivity.
Qed.

Section Control.

Variable Json : Type.
Variable json_loads : string -> option Json.

(** The shape of [services], [start] and [stop]. *)
Lemma await_json_run self dat w :
  (h ← call self "/post/services" dat ∅; body ← result h; json_loads_M Json json_loads body) w =
  let h := List.length (posts_of (trace w)) in
  let sent :=
    [ELog DEBUG ("CLIENT: " +:+ location_of self "/post/services");
     EPost h (mkRequest (location_of self "/post/services") dat ∅)] in
  match net w h with
  | SubmitRaises e => (Raised e, set_trace (trace w ++ sent) w)
  | Submitted (Response body) =>
      (match json_loads body with
       | Some j => Returned j
       | None => Raised (ValueError body)
       end, set_trace (trace w ++ sent ++ [EResult h]) w)
  | Submitted (Failed e) => (Raised e, set_trace (trace w ++ sent ++ [EResult h]) w)
  end.
Proof.
  unfold mbind, M_bind, bind. rewrite call_run. simpl.
  destruct (net w _) as [e | f] eqn:En; [reflexivity|].
  unfold result. simpl. rewrite En. unfold_setters. rewrite <- app_assoc. simpl.
  destruct f as [body | e]; [|reflexivity].
  unfold json_loads_M. destruct (json_loads body); reflexivity.
Qed.

(** What holds of a call that posts and waits, given its closed form. *)
Lemma awaited_call_spec (m : M Json) self dat w :
  m w = (h ← call self "/post/services" dat ∅; body ← result h;
         json_loads_M Json json_loads body) w ->
  let h := List.length (posts_of (trace w)) in
  (forall j, (m w).1 = Returned j ->
     exists body, answered w h body /\ json_loads body = Some j
                  /\ EResult h ∈ trace (m w).2)
  /\ (forall body j, answered w h body -> json_loads body = Some j ->
        (m w).1 = Returned j)
  /\ (forall body, answered w h body -> json_loads body = None ->
        (m w).1 = Raised (ValueError body))
  /\ (forall e, failure_of (net w h) = Some e -> (m w).1 = Raised e).
Proof.
  intros ->. rewrite await_json_run. simpl. unfold answered.
  destruct (net w _) as [e | [body | e]]; simpl.
  - repeat split; try discriminate. intros e' [= <-]. reflexivity.
  - repeat split.
    + intros j Hj. exists body. split; [reflexivity|].
      destruct (json_loads body); [|discriminate].
      injection Hj as <-. split; [reflexivity|].
      apply elem_of_app. right. repeat constructor.
    + intros b j [= <-] ->. reflexivity.
    + intros b [= <-] ->. reflexivity.
    + discriminate.
  - repeat split; try discriminate. intros e' [= <-]. reflexivity.
Qed.

(** C7.  [login] hands its request to the pool whatever the host is, and it
    returns normally exactly when the request got a response, which it has
    waited for; when the request fails, [login] raises the failure, and so
    does the constructor, which otherwise returns the client.  [services],
    [start] and [stop] return a value only when the request got a response
    that was waited for and whose body parses to that value; they raise when
    the request fails or the body does not parse. *)
Theorem blocking_calls self u p name w :
  let h := List.length (posts_of (trace w)) in
  let login_req := mkRequest (location_of self "/post/login")
                     {[ "username" := VStr u; "password" := VStr p ]} ∅ in
  posts_of (trace (login self u p w).2) = posts_of (trace w) ++ [login_req]
  /\ ((login self u p w).1 = Returned tt ->
      (exists body, answered w h body) /\ EResult h ∈ trace (login self u p w).2)
  /\ (forall body, answered w h body -> (login self u p w).1 = Returned tt)
  /\ (forall e, failure_of (net w h) = Some e -> (login self u p w).1 = Raised e)
  /\ (forall e host port ssl anon, failure_of (net w h) = Some e ->
        (DoflerClient_init host port u p ssl anon w).1 = Raised e)
  /\ (forall body host port ssl anon, answered w h body ->
        (DoflerClient_init host port u p ssl anon w).1
        = Returned (mkClient host port ssl anon u))
  /\ (forall m,
        m ∈ [services Json json_loads self; start Json json_loads self name;
             stop Json json_loads self name] ->
        (forall j, (m w).1 = Returned j ->
           exists body, answered w h body /\ json_loads body = Some j
                        /\ EResult h ∈ trace (m w).2)
        /\ (forall body j, answered w h body -> json_loads body = Some j ->
              (m w).1 = Returned j)
        /\ (forall body, answered w h body -> json_loads body = None ->
              (m w).1 = Raised (ValueError body))
        /\ (forall e, failure_of (net w h) = Some e -> (m w).1 = Raised e)).
Proof.
  simpl. unfold answered.
  assert (Hinit : forall host port ssl anon,
    (DoflerClient_init host port u p ssl anon w).1 =
    match (login (mkClient host port ssl anon u) u p w).1 with
    | Returned _ => Returned (mkClient host port ssl anon u)
    | Raised e => Raised e
    end).
  { intros. unfold DoflerClient_init, mbind, M_bind, bind.
    destruct (login _ u p w) as [[[]|e] w']; reflexivity. }
  split; [|split; [|split; [|split; [|split; [|split]]]]].
  - rewrite login_run. simpl.
    destruct (net w _) as [e | [body | e]]; simpl;
      rewrite !posts_of_app; simpl; rewrite ?app_nil_r; reflexivity.
  - rewrite login_run. simpl.
    destruct (net w _) as [e | [body | e]]; simpl; try discriminate.
    intros _. split; [eexists; reflexivity|].
    apply elem_of_app. right. repeat constructor.
  - intros body Hb. rewrite login_run. simpl. rewrite Hb. reflexivity.
  - intros e He. rewrite login_run. simpl.
    destruct (net w _) as [e' | [body | e']]; simpl in *; congruence.
  - intros e host0 port0 ssl0 anon0 He. rewrite Hinit, login_run. simpl.
    destruct (net w _) as [e' | [body | e']]; simpl in *; congruence.
  - intros body host0 port0 ssl0 anon0 Hb. rewrite Hinit, login_run. simpl.
    rewrite Hb. reflexivity.
  - intros m Hm.
    rewrite !elem_of_cons, elem_of_nil in Hm.
    destruct Hm as [-> | [-> | [-> | []]]];
      eapply awaited_call_spec; reflexivity.
Qed.

End Control.

(** ** Routing and sessions *)

Section Routing.

Variable md5hash : string -> string.
Variable clean : string -> string.

(** C5, as the code has it.  The mode is a function of the host string: the
    client is local exactly when its host is ["localhost"] or ["127.0.0.1"].
    Every call of [account] and of [stat], and every call of [image] on a
    path that names a readable file, is routed by it: on a local client the
    call opens a session on the store and hands nothing to the pool; on any
    other client it hands exactly one request for its URL to the pool and
    leaves the store and its sessions alone. *)
Theorem mode_selection self w :
  (is_local self = true <-> host self = "localhost" \/ host self = "127.0.0.1")
  /\ (forall u p i pr pa,
        routed self "/post/account" w (account clean self u p i pr pa w).2)
  /\ (forall proto n, routed self "/post/stat" w (stat self proto n w).2)
  /\ (forall path bytes, fs w !! path = Some (File bytes) ->
        routed self "/post/image" w (image md5hash self path w).2).
Proof.
  split; [apply is_local_spec|]. unfold routed.
  destruct (is_local self) eqn:Hl; unfold went_local, went_remote.
  - split; [|split].
    + intros. rewrite account_local_run by exact Hl. simpl.
      destruct (_ && _); simpl; rewrite posts_of_app; simpl;
        rewrite app_nil_r; auto.
    + intros. rewrite stat_local_run by exact Hl. simpl.
      rewrite posts_of_app. simpl. rewrite app_nil_r. auto.
    + intros path bytes Hf.
      rewrite (image_local_run md5hash self path bytes w Hl Hf). simpl.
      destruct (filter_by_md5sum _ _) as [|r [|r2 l]]; simpl;
        rewrite posts_of_app; simpl; rewrite app_nil_r; auto.
  - split; [|split].
    + intros. rewrite account_remote_run by exact Hl. simpl.
      rewrite posts_of_app. simpl. repeat split; eauto.
    + intros. rewrite stat_remote_run by exact Hl. simpl.
      rewrite posts_of_app. simpl. repeat split; eauto.
    + intros path bytes Hf.
      rewrite (image_remote_run md5hash self path (File bytes) w Hl Hf). simpl.
      destruct (net w _); simpl; rewrite posts_of_app; simpl;
        repeat split; eauto.
Qed.

(** What the three local operations do with their session: [stat] and
    [image] close the session they opened, [account] does not close it. *)
Lemma local_sessions self w :
  is_local self = true ->
  (forall u p i pr pa,
     sessions (account clean self u p i pr pa w).2 = <[next_sid w := []]> (sessions w))
  /\ (forall proto n,
        sessions (stat self proto n w).2 = delete (next_sid w) (sessions w))
  /\ (forall path bytes, fs w !! path = Some (File bytes) ->
        unique_keys (images (db w)) ->
        sessions (image md5hash self path w).2 = delete (next_sid w) (sessions w)).
Proof.
  intros Hl. split; [|split].
  - intros. rewrite account_local_run by exact Hl. simpl.
    destruct (_ && _); reflexivity.
  - intros. rewrite stat_local_run by exact Hl. reflexivity.
  - intros path bytes Hf Hu.
    rewrite (image_local_run md5hash self path bytes w Hl Hf). simpl.
    specialize (Hu (md5hash bytes)).
    destruct (filter_by_md5sum _ _) as [|r [|r2 l]]; simpl in *; [reflexivity..|lia].
Qed.

End Routing.

(** * The properties at concrete inputs *)

(** C1 as stated fails: with the anonymization bit set, a remote client
    posts ["sec***"] for the password ["secret"]. *)
Lemma account_remote_password_masked :
  ~ (forall (clean : string -> string) self u p i pr pa w,
       is_local self = false ->
       exists req,
         posts_of (trace (account clean self u p i pr pa w).2)
         = posts_of (trace w) ++ [req]
         /\ data req !! "password" = Some (VStr p)).
Proof.
  intros H.
  destruct (H sample_clean (remote_client true) "bob" "secret" "ftp login" "ftp"
              "ftpparser" (fresh_world ∅ always_ok) eq_refl) as (req & Hp & Hd).
  vm_compute in Hp. injection Hp as <-.
  vm_compute in Hd. discriminate Hd.
Qed.

Lemma account_remote_password_witness :
  is_local (remote_client true) = false
  /\ List.map (fun req => data req !! "password")
       (posts_of (trace (account sample_clean (remote_client true) "bob" "secret"
                           "ftp login" "ftp" "ftpparser"
                           (fresh_world ∅ always_ok)).2))
     = [Some (VStr "sec***")].
Proof.
  split; [reflexivity|].
  destruct (account_remote_password sample_clean (remote_client true) "bob" "secret"
              "ftp login" "ftp" "ftpparser" (fresh_world ∅ always_ok) eq_refl)
    as [Hposts _].
  rewrite Hposts. reflexivity.
Defined.

Lemma image_dedup_witness :
  exists w',
    run_all (List.map (image sample_hash (local_client false)) ["a.png"; "b.jpg"; "c.gif"])
      (fresh_world {[ "a.png" := File "xyz"; "b.jpg" := File "xyz";
                      "c.gif" := File "pqr" ]} always_ok)
    = (Returned tt, w')
    /\ List.length (filter_by_md5sum (sample_hash "xyz") (images (db w'))) = 1%nat
    /\ (forall r, r ∈ filter_by_md5sum (sample_hash "xyz") (images (db w')) ->
          count r = 2).
Proof.
  destruct (image_dedup sample_hash (local_client false)
              ["a.png"; "b.jpg"; "c.gif"] ["xyz"; "xyz"; "pqr"] "xyz"
              (fresh_world {[ "a.png" := File "xyz"; "b.jpg" := File "xyz";
                              "c.gif" := File "pqr" ]} always_ok))
    as (w' & E & _ & Hcount & Hone & _).
  - reflexivity.
  - reflexivity.
  - repeat constructor.
  - intros b Hb Hh.
    apply elem_of_cons in Hb as [-> | Hb]; [reflexivity|].
    apply elem_of_cons in Hb as [-> | Hb]; [reflexivity|].
    apply elem_of_cons in Hb as [-> | Hb]; [discriminate Hh|].
    inversion Hb.
  - exists w'. split; [exact E|]. split.
    + apply Hone. vm_compute. lia.
    + exact Hcount.
Defined.

(** The guard of [account] does not see the sanitizer: a password that is
    one HTML comment is not empty, so the call inserts, and what it stores
    as the password is empty. *)
Lemma account_stores_empty_password :
  ~ (forall (clean : string -> string) self u p i pr pa w,
       is_local self = true ->
       clean (anonymize_password (anonymize self) p) = EmptyString ->
       accounts (db (account clean self u p i pr pa w).2) = accounts (db w)).
Proof.
  intros H.
  specialize (H sample_clean (local_client false) "bob" "<!-- x -->" "ftp login"
                "ftp" "ftpparser" (fresh_world ∅ always_ok) eq_refl eq_refl).
  vm_compute in H. discriminate H.
Qed.

(** C4 fails on the code.  The test [password != ''] of [account] is there
    to keep empty passwords out of the table, but it looks at the password
    before sanitization.  On a local client without anonymization, the call
    [account("bob", "<!-- x -->", "ftp login", "ftp", "ftpparser")] passes
    the test, since the password has ten characters, and the row it commits
    has the empty string as its password. *)
Theorem account_empty_password_stored :
  let w := fresh_world ∅ always_ok in
  let call := account sample_clean (local_client false) "bob" "<!-- x -->"
                "ftp login" "ftp" "ftpparser" in
  anonymize_password false "<!-- x -->" = "<!-- x -->"
  /\ sample_clean "<!-- x -->" = EmptyString
  /\ (call w).1 = Returned tt
  /\ accounts (db w) = []
  /\ accounts (db (call w).2)
     = [mkAccount "bob" EmptyString "ftp login" "ftp" "ftpparser"]
  /\ trace (call w).2 =
       [ESessionOpen 0; ECommit 0;
        ELog DEBUG "DATABASE: Added Account: bob:<!-- x -->:ftp login:ftp:ftpparser"].
Proof. vm_compute. repeat split. Qed.

Lemma account_dedup_witness :
  exists w1 w2,
    account sample_clean (local_client true) "bob" "secret" "ftp login" "ftp"
      "ftpparser" (fresh_world ∅ always_ok) = (Returned tt, w1)
    /\ account sample_clean (local_client true) "bob" "secret" "ftp login" "ftp"
         "ftpparser" w1 = (Returned tt, w2)
    /\ List.length (List.filter (same_triple "bob" "sec***" "ftp login")
                      (accounts (db w2))) = 1%nat.
Proof.
  destruct (account_dedup sample_clean (local_client true) "bob" "secret" "ftp login"
              "ftp" "ftpparser" (fresh_world ∅ always_ok) eq_refl)
    as (w1 & w2 & E1 & E2 & _ & _ & Hone & _).
  - simpl. apply NoDup_nil_2.
  - exists w1, w2. split; [exact E1|]. split; [exact E2|].
    apply Hone. discriminate.
Defined.

(** C5 as stated fails: on a path that does not exist, [image] on a remote
    client issues no POST. *)
Lemma image_missing_not_routed :
  ~ (forall (md5hash : string -> string) self path w,
       routed self "/post/image" w (image md5hash self path w).2).
Proof.
  intros H.
  specialize (H sample_hash (remote_client false) "missing.png"
                (fresh_world ∅ always_ok)).
  destruct H as [(req & Hp & _) _].
  vm_compute in Hp. discriminate Hp.
Qed.

Lemma mode_selection_witness :
  routed (remote_client false) "/post/image"
    (fresh_world {[ "a.png" := File "xyz" ]} always_ok)
    (image sample_hash (remote_client false) "a.png"
       (fresh_world {[ "a.png" := File "xyz" ]} always_ok)).2
  /\ routed (local_client false) "/post/image"
       (fresh_world {[ "a.png" := File "xyz" ]} always_ok)
       (image sample_hash (local_client false) "a.png"
          (fresh_world {[ "a.png" := File "xyz" ]} always_ok)).2.
Proof.
  split.
  - destruct (mode_selection sample_hash sample_clean (remote_client false)
                (fresh_world {[ "a.png" := File "xyz" ]} always_ok))
      as (_ & _ & _ & H).
    apply (H "a.png" "xyz"). reflexivity.
  - destruct (mode_selection sample_hash sample_clean (local_client false)
                (fresh_world {[ "a.png" := File "xyz" ]} always_ok))
      as (_ & _ & _ & H).
    apply (H "a.png" "xyz"). reflexivity.
Defined.

(** C6 fails on the code for [account].  On a local client, the call
    [account("bob", "secret", "ftp login", "ftp", "ftpparser")] returns with
    the session it opened still open and never closed, and the same call
    again opens a second session that it neither commits nor closes; [stat]
    and [image] in the same world close the session they opened. *)
Theorem account_session_left_open :
  let w := fresh_world {[ "a.png" := File "xyz" ]} always_ok in
  let bob := account sample_clean (local_client true) "bob" "secret" "ftp login"
               "ftp" "ftpparser" in
  (bob w).1 = Returned tt
  /\ sessions (bob w).2 = {[ 0%nat := [] ]}
  /\ trace (bob w).2 =
       [ESessionOpen 0; ECommit 0;
        ELog DEBUG "DATABASE: Added Account: bob:sec***:ftp login:ftp:ftpparser"]
  /\ sessions ((bob;; bob) w).2 = {[ 0%nat := []; 1%nat := [] ]}
  /\ trace ((bob;; bob) w).2 = trace (bob w).2 ++ [ESessionOpen 1]
  /\ sessions (stat (local_client true) "http" 42 w).2 = ∅
  /\ sessions (image sample_hash (local_client true) "a.png" w).2 = ∅.
Proof. vm_compute. repeat split. Qed.

Lemma blocking_calls_witness :
  (login (remote_client true) "sensor1" "s3cret" (fresh_world ∅ always_ok)).1
  = Returned tt
  /\ (DoflerClient_init "127.0.0.1" "8080" "sensor1" "s3cret" false true
        (fresh_world ∅ unreachable)).1
     = Raised (ConnectionError "connection refused")
  /\ (services string sample_json_loads (local_client true)
        (fresh_world ∅ always_ok)).1 = Returned "{}".
Proof.
  split; [|split].
  - destruct (blocking_calls string sample_json_loads (remote_client true)
                "sensor1" "s3cret" "ftp" (fresh_world ∅ always_ok))
      as (_ & _ & H & _).
    apply (H "{}"). reflexivity.
  - destruct (blocking_calls string sample_json_loads (local_client true)
                "sensor1" "s3cret" "ftp" (fresh_world ∅ unreachable))
      as (_ & _ & _ & _ & H & _).
    apply H. reflexivity.
  - destruct (blocking_calls string sample_json_loads (local_client true)
                "sensor1" "s3cret" "ftp" (fresh_world ∅ always_ok))
      as (_ & _ & _ & _ & _ & _ & H).
    destruct (H (services string sample_json_loads (local_client true)))
      as (_ & Hret & _).
    + apply list_elem_of_here.
    + apply (Hret "{}"); reflexivity.
Defined.

(** The handler of [image] does not see the future: when the request is
    handed to the pool and fails there, the failure stays in the future that
    [image] discards, and the call logs no error. *)
Lemma image_upload_failure_unlogged :
  ~ (forall (md5hash : string -> string) self path bytes e w,
       is_local self = false ->
       fs w !! path = Some (File bytes) ->
       failure_of (net w (List.length (posts_of (trace w)))) = Some e ->
       exists w' evs msg,
         image md5hash self path w = (Returned tt, w')
         /\ added w w' evs /\ ELog ERROR msg ∈ evs).
Proof.
  intros H.
  destruct (H sample_hash (remote_client true) "a.png" "xyz"
              (ConnectionError "connection refused")
              (fresh_world {[ "a.png" := File "xyz" ]} unreachable))
    as (w' & evs & msg & E & Ha & Hin); [reflexivity..|].
  rewrite image_remote_run with (entry := File "xyz") in E by reflexivity.
  simpl in E. injection E as <-.
  unfold added in Ha. simpl in Ha. subst evs.
  apply elem_of_cons in Hin as [Hin | Hin]; [discriminate Hin|].
  apply elem_of_cons in Hin as [Hin | Hin]; [discriminate Hin|].
  inversion Hin.
Qed.

(** C8 fails on the code.  The [try]/[except] of [image] is there to catch a
    failed upload and log ["API: Upload Failed"], but [call] returns the
    future of the request and [image] never asks for its result.  On a
    client that is not local, with the collector refusing connections,
    [image("a.png")] on an existing file hands the request to the pool and
    returns normally; the request fails, nothing waits for it, and the call
    has logged the location and no error. *)
Theorem image_upload_failure_lost :
  let w := fresh_world {[ "a.png" := File "xyz" ]} unreachable in
  let call := image sample_hash (remote_client true) "a.png" in
  failure_of (net w 0) = Some (ConnectionError "connection refused")
  /\ (call w).1 = Returned tt
  /\ trace (call w).2 =
       [ELog DEBUG "CLIENT: https://collector.example.org:443/post/image";
        EPost 0 (mkRequest "https://collector.example.org:443/post/image"
                   {[ "filetype" := VStr "png" ]}
                   {[ "file" := mkFileObj "a.png" "xyz" ]})]
  /\ results_of (trace (call w).2) = []
  /\ db (call w).2 = db w.
Proof. vm_compute. repeat split. Qed.

Lemma image_failures_contained_witness :
  (exists w',
     image sample_hash (local_client true) "gone.png" (fresh_world ∅ always_ok)
     = (Returned tt, w')
     /\ trace w' = [ELog ERROR "API: gone.png doesnt exist"])
  /\ (exists w' evs msg,
        image sample_hash (remote_client true) "captures"
          (fresh_world {[ "captures" := Dir 4096 ]} always_ok) = (Returned tt, w')
        /\ trace w' = evs
        /\ List.last evs (ELog DEBUG EmptyString) = ELog ERROR msg).
Proof.
  split.
  - destruct (image_failures_contained sample_hash (local_client true) "gone.png"
                (fresh_world ∅ always_ok)) as [H _].
    destruct H as (w' & E & Ha & _); [reflexivity|].
    exists w'. split; [exact E | exact Ha].
  - destruct (image_failures_contained sample_hash (remote_client true) "captures"
                (fresh_world {[ "captures" := Dir 4096 ]} always_ok)) as [_ H].
    destruct H as (w' & evs & E & Ha & _ & _ & _ & _ & Hlast & _);
      [reflexivity | eexists; reflexivity |].
    destruct Hlast as [msg Hmsg].
    { left. exists 4096. reflexivity. }
    exists w', evs, msg. split; [exact E|]. split; [exact Ha | exact Hmsg].
Defined.

Lemma stat_appends_witness :
  exists w',
    run_all (replicate 3 (stat (local_client false) "http" 42))
      (fresh_world ∅ always_ok) = (Returned tt, w')
    /\ stats (db w') =
         [mkStat "http" "sensor1" 42 1000; mkStat "http" "sensor1" 42 1001;
          mkStat "http" "sensor1" 42 1002].
Proof.
  destruct (stat_appends (local_client false) "http" 42 3 (fresh_world ∅ always_ok)
              eq_refl) as (w' & E & Hs & _).
  exists w'. split; [exact E | exact Hs].
Defined.

Lemma account_sanitized_witness :
  exists r,
    r ∈ accounts (db (account sample_clean (local_client false) "bob" "tom & jerry"
                        "ftp login" "ftp" "ftpparser" (fresh_world ∅ always_ok)).2)
    /\ a_password r = "tom &amp; jerry" /\ a_password r <> "tom & jerry".
Proof.
  destruct (account_sanitized sample_clean (local_client false) "bob" "tom & jerry"
              "ftp login" "ftp" "ftpparser" (fresh_world ∅ always_ok) eq_refl)
    as [_ H].
  destruct H as (r & _ & Hin & Hp & Hne);
    [reflexivity | reflexivity | discriminate | discriminate |].
  exists r. split; [exact Hin|]. split; [exact Hp | exact Hne].
Defined.

(** * Further properties of the client *)

(** ** The file type of an image *)

Lemma split_dot_cons s : exists f rest, split_dot s = f :: rest.
Proof.
  induction s as [|c s IH]; simpl; [eauto|].
  destruct (Ascii.eqb c "."); [eauto|].
  destruct IH as (f & rest & ->). eauto.
Qed.

Lemma split_dot_fields s : Forall (fun f => has_dot f = false) (split_dot s).
Proof.
  induction s as [|c s IH]; simpl; [repeat constructor|].
  destruct (Ascii.eqb c ".") eqn:E; [constructor; [reflexivity | exact IH]|].
  destruct (split_dot s) as [|f rest]; [repeat constructor; simpl; now rewrite E|].
  apply Forall_cons in IH as [Hf Hrest].
  constructor; [simpl; now rewrite E, Hf | exact Hrest].
Qed.

Lemma split_dot_plain s : has_dot s = false -> split_dot s = [s].
Proof.
  induction s as [|c s IH]; simpl; [reflexivity|].
  destruct (Ascii.eqb c "."); simpl; [discriminate|].
  intros H. now rewrite IH.
Qed.

Lemma split_dot_append a b :
  split_dot (a +:+ String "."%char b) = split_dot a ++ split_dot b.
Proof.
  induction a as [|c a IH]; simpl_append; simpl; [reflexivity|].
  destruct (Ascii.eqb c "."); [now rewrite IH|].
  rewrite IH. destruct (split_dot_cons a) as (f & rest & ->). reflexivity.
Qed.

Lemma last_app_cons {A} (l : list A) x l' d :
  List.last (l ++ x :: l') d = List.last (x :: l') d.
Proof.
  induction l as [|y l IH]; [reflexivity|].
  simpl. rewrite IH. destruct (l ++ x :: l') eqn:E; [|reflexivity].
  destruct l; discriminate.
Qed.

Lemma join_dot_cons f g rest :
  join_dot (f :: g :: rest) = f +:+ "." +:+ join_dot (g :: rest).
Proof. reflexivity. Qed.

(** [filename.split('.')[-1]], the file type that [image] stores and posts:
    it never contains a dot; a name without a dot is its own file type; the
    file type of [base.ext] is [ext] when [ext] has no dot; and joining the
    fields of the split with dots gives the name back. *)
Theorem last_field_spec (s base ext : string) :
  has_dot (last_field s) = false
  /\ (has_dot s = false -> last_field s = s)
  /\ (has_dot ext = false -> last_field (base +:+ "." +:+ ext) = ext)
  /\ join_dot (split_dot s) = s.
Proof.
  unfold last_field. split; [|split; [|split]].
  - pose proof (split_dot_fields s) as H.
    destruct (split_dot_cons s) as (f & rest & E). rewrite E in *.
    clear E. revert f H. induction rest as [|g rest IH]; intros f H.
    + now apply Forall_cons in H as [H _].
    + apply Forall_cons in H as [_ H]. apply (IH g H).
  - intros H. now rewrite split_dot_plain.
  - intros H. change (base +:+ "." +:+ ext) with (base +:+ String "."%char ext).
    rewrite split_dot_append, (split_dot_plain ext H).
    now rewrite last_app_cons.
  - induction s as [|c s IH]; [reflexivity|]. simpl.
    destruct (split_dot_cons s) as (f & rest & E). rewrite E in *.
    destruct (Ascii.eqb c ".") eqn:Ec.
    + apply Ascii.eqb_eq in Ec. subst c.
      rewrite join_dot_cons, IH. reflexivity.
    + destruct rest as [|g rest].
      * simpl in *. now rewrite IH.
      * rewrite join_dot_cons in *. rewrite <- IH. reflexivity.
Qed.

Lemma last_field_spec_witness :
  last_field "capture" = "capture"
  /\ last_field ("/tmp/img.0001" +:+ "." +:+ "png") = "png".
Proof.
  destruct (last_field_spec "capture" "/tmp/img.0001" "png") as (_ & Hplain & Hext & _).
  split; [apply Hplain | apply Hext]; reflexivity.
Defined.

(** ** The mask *)

Lemma str_take_3_long a b c rest :
  str_take 3 (String a (String b (String c rest))) =
  String a (String b (String c EmptyString)).
Proof. reflexivity. Qed.

Lemma str_mul_star_inj n m : str_mul "*" n = str_mul "*" m -> n = m.
Proof.
  intros H. apply (f_equal String.length) in H.
  now rewrite !length_str_mul in H.
Qed.

(** Masking is idempotent: a password that went through the anonymization
    step comes out of a second pass unchanged. *)
Theorem anonymize_password_idempotent anon password :
  anonymize_password anon (anonymize_password anon password)
  = anonymize_password anon password.
Proof.
  destruct anon; [|reflexivity].
  destruct (le_lt_dec 3 (String.length password)) as [Hlong | Hshort].
  - rewrite (anonymize_password_long (anonymize_password true password))
      by now rewrite anonymize_password_length.
    rewrite anonymize_password_length.
    rewrite (anonymize_password_long password Hlong).
    destruct password as [|a [|b [|c rest]]]; simpl in *; try lia.
    simpl_append. reflexivity.
  - rewrite (anonymize_password_short true password Hshort).
    apply anonymize_password_short, Hshort.
Qed.

(** With the bit set, what is left of a password of three characters or
    more is its first three characters and its length, and nothing else:
    two such passwords get the same mask exactly when they agree on both. *)
Theorem anonymize_password_hides p q :
  (3 <= String.length p)%nat -> (3 <= String.length q)%nat ->
  (anonymize_password true p = anonymize_password true q
   <-> str_take 3 p = str_take 3 q /\ String.length p = String.length q).
Proof.
  intros Hp Hq. rewrite !anonymize_password_long by assumption.
  destruct p as [|a [|b [|c rest]]]; simpl in Hp; try lia.
  destruct q as [|a' [|b' [|c' rest']]]; simpl in Hq; try lia.
  rewrite !str_take_3_long. simpl String.length. simpl Nat.sub.
  rewrite !Nat.sub_0_r. simpl_append.
  split.
  - intros [= -> -> -> H]. apply str_mul_star_inj in H. now rewrite H.
  - intros [[= -> -> ->] [= ->]]. reflexivity.
Qed.

Lemma anonymize_password_hides_witness :
  anonymize_password true "hunter2" = anonymize_password true "hunTER!".
Proof.
  apply anonymize_password_hides; [simpl; lia | simpl; lia |].
  split; reflexivity.
Defined.

(** ** Requests that are not waited for *)

Lemma results_of_app t1 t2 : results_of (t1 ++ t2) = results_of t1 ++ results_of t2.
Proof.
  induction t1 as [|e t1 IH]; [reflexivity|].
  destruct e; simpl; rewrite IH; reflexivity.
Qed.

Lemma reset_run self env w :
  reset self env w =
  let h := List.length (posts_of (trace w)) in
  (match net w h with
   | SubmitRaises e => Raised e
   | Submitted _ => Returned tt
   end,
   set_trace (trace w ++ [ELog DEBUG ("CLIENT: " +:+ location_of self "/post/reset");
                          EPost h (mkRequest (location_of self "/post/reset")
                                     {[ "type" := VStr env ]} ∅)]) w).
Proof.
  unfold reset. unfold mbind, M_bind, bind. rewrite call_run. simpl.
  destruct (net w _); reflexivity.
Qed.

Lemma forgets_intro (m : M unit) w loc dat fls :
  m w =
  (match net w (List.length (posts_of (trace w))) with
   | SubmitRaises e => Raised e
   | Submitted _ => Returned tt
   end,
   set_trace (trace w ++ [ELog DEBUG ("CLIENT: " +:+ loc);
                          EPost (List.length (posts_of (trace w)))
                            (mkRequest loc dat fls)]) w) ->
  forgets m w.
Proof.
  intros E. unfold forgets. rewrite E. simpl.
  rewrite posts_of_app, results_of_app, length_app. simpl.
  rewrite app_nil_r.
  split; [intros f ->; reflexivity|].
  split; [intros e ->; reflexivity|].
  split; [lia|]. auto.
Qed.

(** [reset] on any client, and [account] and [stat] on a client that is not
    local, hand one request to the pool and forget it: they return normally
    as soon as the pool has taken the request, also when the request later
    fails; they raise what the pool raises when it refuses the request; they
    never wait for a response and never touch the store. *)
Theorem fire_and_forget (clean : string -> string) self w :
  (forall env, forgets (reset self env) w)
  /\ (is_local self = false ->
      (forall u p i pr pa, forgets (account clean self u p i pr pa) w)
      /\ (forall proto n, forgets (stat self proto n) w)).
Proof.
  split; [|intros Hl; split].
  - intros env. eapply forgets_intro. rewrite reset_run. reflexivity.
  - intros u p i pr pa. eapply forgets_intro.
    rewrite account_remote_run by exact Hl. reflexivity.
  - intros proto n. eapply forgets_intro.
    rewrite stat_remote_run by exact Hl. reflexivity.
Qed.

Lemma fire_and_forget_witness :
  (stat (remote_client true) "http" 42 (fresh_world ∅ unreachable)).1 = Returned tt
  /\ results_of (trace (stat (remote_client true) "http" 42
                          (fresh_world ∅ unreachable)).2) = [].
Proof.
  destruct (fire_and_forget sample_clean (remote_client true)
              (fresh_world ∅ unreachable)) as [_ H].
  destruct (H eq_refl) as [_ Hstat].
  destruct (Hstat "http" 42) as (Hret & _ & _ & Hres & _).
  split; [eapply Hret; reflexivity | exact Hres].
Defined.

(** ** Every request is logged *)

Section Logged.

Variable md5hash : string -> string.
Variable clean : string -> string.
Variable Json : Type.
Variable json_loads : string -> option Json.

Lemma image_local_unreadable self path size w :
  is_local self = true ->
  fs w !! path = Some (Dir size) ->
  image md5hash self path w = (Raised (IOError path), w).
Proof.
  intros Hl Hf. unfold image, os_path_exists. run_monad.
  rewrite Hf. rewrite bool_decide_eq_true_2 by (eexists; reflexivity).
  rewrite Hl. unfold open_rb. rewrite Hf. reflexivity.
Qed.

Ltac show_logged :=
  unfold logs_its_posts, added; simpl;
  first
    [ eexists; split; [reflexivity|]; simpl; rewrite ?String.eqb_refl; reflexivity
    | exists []; split; [now rewrite app_nil_r | reflexivity] ].

(** Whatever the client does, it only adds to the trace, and every request
    it hands to the pool comes right after a debug line ["CLIENT: "] with the
    location of that request: no method posts without logging where to. *)
Theorem requests_logged self w :
  (forall u p, logs_its_posts (login self u p) w)
  /\ (forall env, logs_its_posts (reset self env) w)
  /\ (forall u p i pr pa, logs_its_posts (account clean self u p i pr pa) w)
  /\ (forall path, logs_its_posts (image md5hash self path) w)
  /\ (forall proto n, logs_its_posts (stat self proto n) w)
  /\ logs_its_posts (services Json json_loads self) w
  /\ (forall name, logs_its_posts (start Json json_loads self name) w)
  /\ (forall name, logs_its_posts (stop Json json_loads self name) w).
Proof.
  assert (Hctl : forall dat,
    logs_its_posts (h ← call self "/post/services" dat ∅; body ← result h;
                    json_loads_M Json json_loads body) w).
  { intros dat. unfold logs_its_posts. rewrite await_json_run. simpl.
    destruct (net w _) as [e | [body | e]]; show_logged. }
  split; [|split; [|split; [|split; [|split; [|split; [|split]]]]]].
  - intros u p. unfold logs_its_posts. rewrite login_run. simpl.
    destruct (net w _) as [e | [body | e]]; show_logged.
  - intros env. unfold logs_its_posts. rewrite reset_run. show_logged.
  - intros u p i pr pa. destruct (is_local self) eqn:Hl; unfold logs_its_posts.
    + rewrite account_local_run by exact Hl. simpl.
      destruct (_ && _); show_logged.
    + rewrite account_remote_run by exact Hl. show_logged.
  - intros path. unfold logs_its_posts.
    destruct (fs w !! path) as [entry|] eqn:Hf.
    + destruct (is_local self) eqn:Hl.
      * destruct entry as [bytes | size].
        -- rewrite (image_local_run md5hash self path bytes w Hl Hf). simpl.
           destruct (filter_by_md5sum _ _) as [|r [|r2 l]]; show_logged.
        -- rewrite (image_local_unreadable self path size w Hl Hf). show_logged.
      * rewrite (image_remote_run md5hash self path entry w Hl Hf). simpl.
        destruct entry as [bytes | size]; [destruct (net w _)|]; show_logged.
    + rewrite image_missing by exact Hf. show_logged.
  - intros proto n. destruct (is_local self) eqn:Hl; unfold logs_its_posts.
    + rewrite stat_local_run by exact Hl. show_logged.
    + rewrite stat_remote_run by exact Hl. show_logged.
  - apply Hctl.
  - intros name. apply Hctl.
  - intros name. apply Hctl.
Qed.

End Logged.

(** ** What each operation leaves alone *)

Section Frame.

Variable md5hash : string -> string.
Variable clean : string -> string.

(** A path that exists but cannot be opened (a directory), on a local
    client: [open] raises [IOError] out of [image] before a session is
    opened, and nothing at all has changed. *)
Theorem image_local_open_fails self path size w :
  is_local self = true ->
  fs w !! path = Some (Dir size) ->
  image md5hash self path w = (Raised (IOError path), w).
Proof. apply image_local_unreadable. Qed.


End Frame.

Lemma image_local_open_fails_witness :
  image sample_hash (local_client true) "captures"
    (fresh_world {[ "captures" := Dir 4096 ]} always_ok)
  = (Raised (IOError "captures"), fresh_world {[ "captures" := Dir 4096 ]} always_ok).
Proof. apply image_local_open_fails with (size := 4096); reflexivity. Defined.

(** ** The row of an image that is seen again *)

Section Resighting.

Variable md5hash : string -> string.

Lemma image_resighted self B ps : forall r w,
  is_local self = true ->
  images (db w) = [r] ->
  md5sum r = md5hash B ->
  Forall (fun p => fs w !! p = Some (File B)) ps ->
  exists w' ts,
    run_all (List.map (image md5hash self) ps) w = (Returned tt, w')
    /\ images (db w') =
         [mkImage ts (filetype r) (i_data r) (md5sum r)
            (count r + Z.of_nat (List.length ps))]
    /\ (ps = [] -> ts = timestamp r)
    /\ (ps <> [] -> ts = clock w (ticks w + List.length ps - 1)%nat).
Proof.
  induction ps as [|p ps IH]; intros r w Hl Hr Hk Hall.
  - exists w, (timestamp r). simpl. split; [reflexivity|].
    rewrite Z.add_0_r. destruct r; simpl. rewrite Hr.
    split; [reflexivity|]. split; [reflexivity | congruence].
  - apply Forall_cons in Hall as [Hp Hall].
    simpl. unfold mbind, M_bind, bind.
    rewrite (image_local_run md5hash self p B w Hl Hp). simpl.
    rewrite Hr. simpl. rewrite Hk, String.eqb_refl. simpl.
    unfold update_image. simpl. rewrite ?Hk, ?String.eqb_refl.
    match goal with
    | |- context [run_all _ ?v] =>
        destruct (IH (sighted (clock w (ticks w)) r) v Hl) as (w' & ts & E & Hi & Hnil & Hcons)
    end; [simpl; rewrite ?Hk, ?String.eqb_refl; reflexivity | simpl; exact Hk
         | exact Hall |].
    exists w', ts. split; [exact E|]. simpl in Hi, Hnil, Hcons.
    split; [|split; [discriminate|]].
    + rewrite Hi. change (List.length (p :: ps)) with (S (List.length ps)).
      rewrite Nat2Z.inj_succ. do 2 f_equal; first [exact Hk | lia].
    + intros _. destruct ps as [|q ps].
      * rewrite Hnil by reflexivity. simpl. f_equal. lia.
      * rewrite Hcons by discriminate. f_equal. simpl. lia.
Qed.

(** In local mode, on a store without images, reporting the same bytes from
    the files [p1], then [ps], leaves one row: it is keyed by the digest of
    the bytes and holds them, its file type is the one of the first name
    (later names do not change it), its timestamp is the time of the last
    report, and its counter is the number of reports. *)
Theorem image_repeated self p1 ps B w :
  is_local self = true ->
  images (db w) = [] ->
  Forall (fun p => fs w !! p = Some (File B)) (p1 :: ps) ->
  exists w',
    run_all (List.map (image md5hash self) (p1 :: ps)) w = (Returned tt, w')
    /\ images (db w') =
         [mkImage (clock w (ticks w + List.length ps)%nat) (last_field p1) B
            (md5hash B) (1 + Z.of_nat (List.length ps))].
Proof.
  intros Hl Hempty Hall. apply Forall_cons in Hall as [Hp Hall].
  simpl. unfold mbind, M_bind, bind.
  rewrite (image_local_run md5hash self p1 B w Hl Hp). simpl.
  rewrite Hempty. simpl.
  match goal with
  | |- context [run_all _ ?v] =>
      destruct (image_resighted self B ps
                  (Image_new (clock w (ticks w)) (last_field p1) B (md5hash B)) v Hl)
        as (w' & ts & E & Hi & Hnil & Hcons)
  end; [reflexivity | reflexivity | exact Hall |].
  exists w'. split; [exact E|]. rewrite Hi. simpl in *.
  destruct ps as [|q ps].
  - rewrite Hnil by reflexivity. simpl. now rewrite Nat.add_0_r.
  - rewrite Hcons by discriminate. do 3 f_equal. simpl. lia.
Qed.

End Resighting.

Lemma image_repeated_witness :
  exists w',
    run_all (List.map (image sample_hash (local_client false))
               ["shot.png"; "copy.of.shot.jpeg"; "again"])
      (fresh_world {[ "shot.png" := File "xyz"; "copy.of.shot.jpeg" := File "xyz";
                      "again" := File "xyz" ]} always_ok)
    = (Returned tt, w')
    /\ images (db w') = [mkImage 1002 "png" "xyz" "78797a" 3].
Proof.
  destruct (image_repeated sample_hash (local_client false) "shot.png"
              ["copy.of.shot.jpeg"; "again"] "xyz"
              (fresh_world {[ "shot.png" := File "xyz";
                              "copy.of.shot.jpeg" := File "xyz";
                              "again" := File "xyz" ]} always_ok))
    as (w' & E & Hi).
  - reflexivity.
  - reflexivity.
  - repeat constructor.
  - exists w'. split; [exact E | exact Hi].
Defined.

(** ** Any sequence of [account] calls *)

Section AccountCalls.

Variable clean : string -> string.

Lemma account_with_step self a w :
  is_local self = true ->
  NoDup (List.map triple (accounts (db w))) ->
  exists w1,
    account_with clean self a w = (Returned tt, w1)
    /\ NoDup (List.map triple (accounts (db w1)))
    /\ (accounts (db w1) = accounts (db w)
        \/ accounts (db w1) = accounts (db w) ++ [row_of clean self a])
    /\ images (db w1) = images (db w) /\ stats (db w1) = stats (db w).
Proof.
  intros Hl Hnd. unfold account_with, row_of.
  rewrite account_local_run by exact Hl. simpl.
  rewrite chained_filters. unfold q_count.
  case_bool_decide as Hc; simpl.
  - destruct (negb _); simpl.
    + eexists. split; [reflexivity|]. simpl.
      split; [|split; [right; reflexivity | split; reflexivity]].
      apply NoDup_triple_snoc; [exact Hnd|]. simpl.
      destruct (List.filter _ _); [reflexivity | simpl in Hc; lia].
    + eexists. split; [reflexivity|]. simpl. auto.
  - eexists. split; [reflexivity|]. simpl. auto.
Qed.

(** In local mode, any sequence of [account] calls on a table in which no
    two rows share their (username, password, info) triple returns normally
    and leaves such a table.  The rows that were there stay in place; what
    is added comes after them, is at most one row per call, and each added
    row is the sanitized row of one of the calls.  Images and statistics
    are untouched. *)
Theorem account_calls_keep_unique self (calls : list AccountArgs) : forall w,
  is_local self = true ->
  NoDup (List.map triple (accounts (db w))) ->
  exists w' new,
    run_all (List.map (account_with clean self) calls) w = (Returned tt, w')
    /\ NoDup (List.map triple (accounts (db w')))
    /\ accounts (db w') = accounts (db w) ++ new
    /\ (List.length new <= List.length calls)%nat
    /\ (forall r, r ∈ new -> r ∈ List.map (row_of clean self) calls)
    /\ images (db w') = images (db w) /\ stats (db w') = stats (db w).
Proof.
  induction calls as [|a calls IH]; intros w Hl Hnd.
  - exists w, []. simpl. rewrite app_nil_r.
    repeat split; auto; intros r Hr; inversion Hr.
  - destruct (account_with_step self a w Hl Hnd) as (w1 & E1 & Hnd1 & Hrows & Hi1 & Hs1).
    destruct (IH w1 Hl Hnd1) as (w' & new & E & Hnd' & Hacc & Hlen & Hin & Hi & Hs).
    simpl. unfold mbind, M_bind, bind. rewrite E1.
    destruct Hrows as [Hsame | Hadd].
    + exists w', new. split; [exact E|]. split; [exact Hnd'|].
      split; [now rewrite Hacc, Hsame|]. split; [simpl; lia|].
      split; [|split; congruence].
      intros r Hr. apply list_elem_of_further. auto.
    + exists w', (row_of clean self a :: new). split; [exact E|]. split; [exact Hnd'|].
      split; [rewrite Hacc, Hadd, <- app_assoc; reflexivity|].
      split; [simpl; lia|]. split; [|split; congruence].
      intros r Hr. apply elem_of_cons in Hr as [-> | Hr];
        [apply list_elem_of_here | apply list_elem_of_further; auto].
Qed.

End AccountCalls.

Lemma account_calls_keep_unique_witness :
  exists w',
    run_all (List.map (account_with sample_clean (local_client true))
               [mkArgs "bob" "secret" "ftp login" "ftp" "ftpparser";
                mkArgs "eve" EmptyString "pop3" "pop3" "ettercap";
                mkArgs "bob" "secure" "ftp login" "ftp" "ftpparser"])
      (fresh_world ∅ always_ok) = (Returned tt, w')
    /\ NoDup (List.map triple (accounts (db w')))
    /\ (List.length (accounts (db w')) <= 3)%nat.
Proof.
  destruct (account_calls_keep_unique sample_clean (local_client true)
              [mkArgs "bob" "secret" "ftp login" "ftp" "ftpparser";
               mkArgs "eve" EmptyString "pop3" "pop3" "ettercap";
               mkArgs "bob" "secure" "ftp login" "ftp" "ftpparser"]
              (fresh_world ∅ always_ok) eq_refl)
    as (w' & new & E & Hnd & Hacc & Hlen & _).
  - simpl. apply NoDup_nil_2.
  - exists w'. split; [exact E|]. split; [exact Hnd|].
    rewrite Hacc. simpl in *. exact Hlen.
Defined.

(** ** What goes over the wire *)

Section Wire.

Variable md5hash : string -> string.
Variable Json : Type.
Variable json_loads : string -> option Json.

(** On a client that is not local, [image] on a readable file hands the
    pool one request for [/post/image]: its form has the single field
    [filetype], the text after the last dot of the name, and it carries the
    file under [file], with the name and the bytes that are on disk.  The
    clock is not read and the store is not touched. *)
Theorem image_upload_carries_file self path bytes w :
  is_local self = false ->
  fs w !! path = Some (File bytes) ->
  let w' := (image md5hash self path w).2 in
  posts_of (trace w') =
    posts_of (trace w) ++
      [mkRequest (location_of self "/post/image")
         {[ "filetype" := VStr (last_field path) ]}
         {[ "file" := mkFileObj path bytes ]}]
  /\ results_of (trace w') = results_of (trace w)
  /\ ticks w' = ticks w /\ db w' = db w /\ sessions w' = sessions w.
Proof.
  intros Hl Hf. simpl.
  rewrite (image_remote_run md5hash self path (File bytes) w Hl Hf). simpl.
  destruct (net w _); simpl; rewrite posts_of_app, results_of_app; simpl;
    rewrite ?app_nil_r; auto.
Qed.

(** On a client that is not local, [stat] posts the protocol, the count as
    an integer, and the name the client was constructed with (not one the
    caller passes) to [/post/stat], and reads no clock. *)
Theorem stat_remote_post self proto n w :
  is_local self = false ->
  let w' := (stat self proto n w).2 in
  posts_of (trace w') =
    posts_of (trace w) ++
      [mkRequest (location_of self "/post/stat")
         {[ "proto" := VStr proto; "count" := VInt n;
            "username" := VStr (username self) ]} ∅]
  /\ ticks w' = ticks w /\ db w' = db w.
Proof.
  intros Hl. simpl. rewrite stat_remote_run by exact Hl. simpl.
  rewrite posts_of_app. simpl. auto.
Qed.

(** [services], [start] and [stop] post to [/post/services] on every client,
    local or not, whatever the network then does: [services] with action and
    parser ["none"], [start] and [stop] with actions ["Start"] and ["Stop"]
    and the service name as parser.  None of them touches the store. *)
Theorem control_requests self name w :
  let posted (m : M Json) action parser :=
    posts_of (trace (m w).2) =
      posts_of (trace w) ++
        [mkRequest (location_of self "/post/services")
           {[ "action" := VStr action; "parser" := VStr parser ]} ∅]
    /\ db (m w).2 = db w /\ sessions (m w).2 = sessions w in
  posted (services Json json_loads self) "none" "none"
  /\ posted (start Json json_loads self name) "Start" name
  /\ posted (stop Json json_loads self name) "Stop" name.
Proof.
  assert (H : forall dat,
    let m := (h ← call self "/post/services" dat ∅; body ← result h;
              json_loads_M Json json_loads body) in
    posts_of (trace (m w).2) =
      posts_of (trace w) ++ [mkRequest (location_of self "/post/services") dat ∅]
    /\ db (m w).2 = db w /\ sessions (m w).2 = sessions w).
  { intros dat. simpl. rewrite await_json_run. simpl.
    destruct (net w _) as [e | [body | e]]; simpl; rewrite !posts_of_app; simpl;
      rewrite ?app_nil_r; auto. }
  simpl. split; [|split]; apply H.
Qed.

End Wire.

Lemma image_upload_carries_file_witness :
  posts_of (trace (image sample_hash (remote_client true) "shot.png"
                     (fresh_world {[ "shot.png" := File "xyz" ]} unreachable)).2)
  = [mkRequest "https://collector.example.org:443/post/image"
       {[ "filetype" := VStr "png" ]} {[ "file" := mkFileObj "shot.png" "xyz" ]}].
Proof.
  destruct (image_upload_carries_file sample_hash (remote_client true) "shot.png"
              "xyz" (fresh_world {[ "shot.png" := File "xyz" ]} unreachable))
    as [H _]; [reflexivity | reflexivity |].
  exact H.
Defined.

Lemma stat_remote_post_witness :
  List.map (fun req => data req !! "username")
    (posts_of (trace (stat (remote_client true) "http" 42
                        (fresh_world ∅ always_ok)).2))
  = [Some (VStr "sensor1")].
Proof.
  destruct (stat_remote_post (remote_client true) "http" 42
              (fresh_world ∅ always_ok) eq_refl) as [H _].
  rewrite H. reflexivity.
Defined.

(** ** Calls that the duplicate test drops *)

Section Duplicates.

Variable clean : string -> string.

(** In local mode, after a call of [account], a second call adds no row
    when its username and info sanitize to the same text and its password
    is the same after the anonymization step, whatever protocol and parser
    it names: the record keeps the protocol and parser of the first call.
    With the anonymization bit set this makes one record of two different
    passwords of the same length and first three characters. *)
Theorem account_duplicate_dropped self u p i pr pa u2 p2 i2 pr2 pa2 w :
  is_local self = true ->
  clean u2 = clean u ->
  anonymize_password (anonymize self) p2 = anonymize_password (anonymize self) p ->
  clean i2 = clean i ->
  let w1 := (account clean self u p i pr pa w).2 in
  let w2 := (account clean self u2 p2 i2 pr2 pa2 w1).2 in
  accounts (db w2) = accounts (db w1)
  /\ (anonymize self = true -> (3 <= String.length p)%nat ->
      str_take 3 p2 = str_take 3 p -> String.length p2 = String.length p ->
      anonymize_password (anonymize self) p2 = anonymize_password (anonymize self) p).
Proof.
  intros Hl Hu Hp Hi. simpl. split.
  - rewrite (account_local_run clean self u2 p2 i2 pr2 pa2) by exact Hl.
    cbv zeta. rewrite Hu, Hp, Hi.
    set (p' := anonymize_password (anonymize self) p).
    rewrite chained_filters, count_lt_1_existsb.
    rewrite (account_local_run clean self u p i pr pa w) by exact Hl.
    cbv zeta. fold p'. rewrite chained_filters, count_lt_1_existsb.
    destruct (String.eqb p' EmptyString) eqn:Ep; cbn [negb].
    + rewrite !andb_false_r. reflexivity.
    + rewrite !andb_true_r.
      destruct (existsb _ (accounts (db w))) eqn:Ex; simpl.
      * rewrite Ex. reflexivity.
      * rewrite existsb_app. simpl.
        unfold same_triple at 2. simpl. rewrite !String.eqb_refl. simpl.
        rewrite orb_true_r. reflexivity.
  - intros Ha Hlen Htake Hlen2. rewrite Ha.
    apply anonymize_password_hides; [lia | exact Hlen | auto].
Qed.

End Duplicates.

Lemma account_duplicate_dropped_witness :
  let first := account sample_clean (local_client true) "bob" "secret" "ftp login"
                 "ftp" "ftpparser" in
  let second := account sample_clean (local_client true) "bob" "secure" "ftp login"
                  "ftp-data" "ettercap" in
  accounts (db (second (first (fresh_world ∅ always_ok)).2).2)
  = accounts (db (first (fresh_world ∅ always_ok)).2).
Proof.
  destruct (account_duplicate_dropped sample_clean (local_client true)
              "bob" "secret" "ftp login" "ftp" "ftpparser"
              "bob" "secure" "ftp login" "ftp-data" "ettercap"
              (fresh_world ∅ always_ok)) as [H _]; [reflexivity..|].
  exact H.
Defined.

(** ** [reset] *)

(** [reset] posts the one field [type] to [/post/reset] on every client: on
    a local client too the request goes to the network, and the tables of
    the local store are left as they are. *)
Theorem reset_request self env w :
  let w' := (reset self env w).2 in
  posts_of (trace w') =
    posts_of (trace w) ++
      [mkRequest (location_of self "/post/reset") {[ "type" := VStr env ]} ∅]
  /\ db w' = db w /\ sessions w' = sessions w /\ next_sid w' = next_sid w.
Proof.
  simpl. rewrite reset_run. simpl. rewrite posts_of_app. simpl. auto.
Qed.
